(** * Observation dashboard: filtering and aggregation pipeline of [src/App.jsx]

    The development embeds the pure part of the [App] component:

    - the two push handlers registered by [subscribeToUpdates]
      (lines 108-120), as a step function on the session state;
    - the [filteredPoints] memo (lines 123-145), stage by stage;
    - the [filteredTrips] memo (lines 147-150);
    - the [stats] reducer (lines 153-167);
    - the colour table of [getMarkerIcon] (lines 34-48) and the pattern
      the layer menu applies to the icon markup (line 362);
    - the state updates of [fetchInitialData] (lines 92-106);
    - the handlers of the controls ([toggleLayer], the two menus, the
      selects, the chart switch) as actions on the component state, with
      what the rendered page offers in each state.

    Modelling conventions.

    - A database row is a record.  A column that may be [null] is an
      [option]; [None] is JavaScript's [null].  Identifiers are strings
      (the component calls [split('-')] on them).
    - The [adults] and [calves] columns hold integers.  JavaScript numbers
      are binary64: a sum is the double nearest to the exact sum
      ([num_add]), which is the exact sum only below 2^53.  Magnitudes
      near the overflow threshold 2^1024 are not represented.  The danger
      counter and the histogram counts are at most the length of the
      array, which is below 2^32, so their additions are exact.
    - The object literals used as dictionaries ([dangerTypes],
      [healthStatus], [activeLayers], [colors]) are plain objects: a
      finite map of own properties, and behind it the members every plain
      object inherits from [Object.prototype] ([inherited]), taken as the
      engine provides it.  The enumeration order of the keys is outside
      the model.
    - [date-fns] is an external dependency.  The pipeline is written
      against an interface ([DateLib]) that carries what the code calls:
      [parseISO], [startOfDay], [endOfDay].  A [Date] is [Some ms]
      (milliseconds since the epoch) or [None] for [Invalid Date], whose
      comparisons are all false.  What [parseISO] does with an argument
      that is not a string depends on the version of the library, which
      the repository does not fix: it returns [Invalid Date] or raises a
      [TypeError] ([rejects_non_string]).  The list-valued functions give
      the result of a run in which nothing is raised; [date_stage_raises]
      and [filteredPoints_raises] say when the date filter raises.  Module
      [FixedOffset] gives executable instances for a zone at a constant
      offset from UTC. *)

From Stdlib Require Import ZArith String Ascii List Bool Lia.
From stdpp Require Import base option list gmap strings fin_maps.

Local Open Scope string_scope.
Local Open Scope list_scope.
Local Open Scope Z_scope.

(** ** JavaScript values and operators used by the component *)

(** [x || d] on a nullable number: [null] and [0] are falsy. *)
Definition or_num (x : option Z) (d : Z) : Z :=
  match x with
  | Some n => if n =? 0 then d else n
  | None => d
  end.

(** A string is truthy unless it is empty. *)
Definition truthy_str (s : string) : bool := negb (String.eqb s "").

(** [x || d] on a nullable string: [null] and [''] are falsy. *)
Definition or_str (x : option string) (d : string) : string :=
  match x with
  | Some s => if truthy_str s then s else d
  | None => d
  end.

(** [x === s] where [x] is a nullable string and [s] a string. *)
Definition strict_eq (x : option string) (s : string) : bool :=
  match x with
  | Some v => String.eqb v s
  | None => false
  end.

(** [ids.includes(x)] on an array of strings. *)
Definition includes (ids : list string) (x : option string) : bool :=
  match x with
  | Some v => existsb (String.eqb v) ids
  | None => false
  end.

(** A nullable string used as a property key: [null] becomes ["null"]. *)
Definition to_key (x : option string) : string :=
  match x with
  | Some v => v
  | None => "null"
  end.

(** The names of the members a plain object inherits from
    [Object.prototype] (ECMAScript, with its Annex B). *)
Definition object_prototype_names : list string :=
  ["constructor"; "__defineGetter__"; "__defineSetter__"; "hasOwnProperty";
   "__lookupGetter__"; "__lookupSetter__"; "isPrototypeOf";
   "propertyIsEnumerable"; "toString"; "valueOf"; "__proto__";
   "toLocaleString"].

Definition inherited (k : string) : bool :=
  existsb (String.eqb k) object_prototype_names.

(** [obj[k]] in a boolean position, on a plain object whose own properties
    hold booleans: an own property counts as its value; an inherited member
    (a function, or the prototype object for [__proto__]) is truthy; a
    property found nowhere is [undefined]. *)
Definition truthy_at (obj : gmap string bool) (k : string) : bool :=
  match obj !! k with
  | Some b => b
  | None => inherited k
  end.

(** The double nearest to an integer, ties to the even significand: the
    integer itself below 2^53. *)
Definition to_double (z : Z) : Z :=
  let a := Z.abs z in
  if a <? 2 ^ 53 then z
  else
    let e := Z.log2 a - 52 in
    let q := a / 2 ^ e in
    let r := a mod 2 ^ e in
    let half := 2 ^ (e - 1) in
    let q' := if (half <? r) || ((r =? half) && Z.odd q) then q + 1 else q in
    Z.sgn z * (q' * 2 ^ e).

(** [x + y] on two numbers that hold integers. *)
Definition num_add (x y : Z) : Z := to_double (x + y).

(** An empty string read as an absent value. *)
Definition blank_as_null (x : option string) : option string :=
  match x with
  | Some s => if truthy_str s then Some s else None
  | None => None
  end.

(** ** Rows *)

Module Trip.
Record t : Type := mk {
  id : string;
  user_id : option string;
  start_time : option string
}.
End Trip.

Module Point.
Record t : Type := mk {
  id : string;
  trip_id : option string;
  type : option string;
  created_at : option string;
  adults : option Z;
  calves : option Z;
  danger_type : option string;
  health_status : option string
}.
End Point.

(** The row with empty hazard category and health status made absent. *)
Definition without_blanks (p : Point.t) : Point.t :=
  Point.mk (Point.id p) (Point.trip_id p) (Point.type p) (Point.created_at p)
           (Point.adults p) (Point.calves p)
           (blank_as_null (Point.danger_type p))
           (blank_as_null (Point.health_status p)).

(** A hazard row with the given category and health status. *)
Definition hazard_row (id : string) (trip created : option string)
    (category health : option string) : Point.t :=
  Point.mk id trip (Some "Peligro") created None None category health.

(** ** Session state and push events ([subscribeToUpdates]) *)

Record Session : Type := mkSession {
  trips : list Trip.t;
  points : list Point.t
}.

(** An [INSERT] notification on table [trip_data] or on table [trips]. *)
Inductive Push : Type :=
  | InsertTripData (new : Point.t)
  | InsertTrips (new : Trip.t).

(** [setPoints(prev => [...prev, payload.new])] and
    [setTrips(prev => [payload.new, ...prev])]. *)
Definition on_push (s : Session) (e : Push) : Session :=
  match e with
  | InsertTripData new => {| trips := trips s; points := points s ++ [new] |}
  | InsertTrips new => {| trips := new :: trips s; points := points s |}
  end.

Definition on_pushes (s : Session) (es : list Push) : Session :=
  fold_left on_push es s.

(** The trips, resp. points, announced by a run of events, in arrival order. *)
Fixpoint pushed_trips (es : list Push) : list Trip.t :=
  match es with
  | [] => []
  | InsertTrips new :: es' => new :: pushed_trips es'
  | InsertTripData _ :: es' => pushed_trips es'
  end.

Fixpoint pushed_points (es : list Push) : list Point.t :=
  match es with
  | [] => []
  | InsertTripData new :: es' => new :: pushed_points es'
  | InsertTrips _ :: es' => pushed_points es'
  end.

(** ** Statistics ([stats]) *)

(** What a histogram object holds under a key: a count, or the text that
    adding 1 to an inherited member gives, namely the text of that member
    (the source text of a native function, whose wording depends on the
    engine) followed by one character [1] per addition. *)
Inductive Cell : Type :=
  | Num (n : Z)
  | Text (member : string) (ones : nat).

Record Stats : Type := mkStats {
  adults : Z;
  calves : Z;
  danger : Z;
  dangerTypes : gmap string Cell;
  healthStatus : gmap string Cell
}.

(** [obj[k] = (obj[k] || 0) + 1] on a plain object.  An own count is
    incremented; an own text gets one more [1]; a key found nowhere starts
    at 1.  For a key that is not own but inherited, the member read is
    truthy and the sum is a text: it is stored as an own property, except
    under [__proto__], whose setter ignores a value that is not an
    object. *)
Definition bump (obj : gmap string Cell) (k : string) : gmap string Cell :=
  match obj !! k with
  | Some (Num n) => <[k := Num (or_num (Some n) 0 + 1)]> obj
  | Some (Text member ones) => <[k := Text member (S ones)]> obj
  | None =>
      if inherited k then
        if String.eqb k "__proto__" then obj else <[k := Text k 1]> obj
      else <[k := Num (or_num None 0 + 1)]> obj
  end.

(** The reducer callback. *)
Definition stats_step (acc : Stats) (curr : Point.t) : Stats :=
  if strict_eq (Point.type curr) "Avistamiento" then
    {| adults := num_add (adults acc) (or_num (Point.adults curr) 0);
       calves := num_add (calves acc) (or_num (Point.calves curr) 0);
       danger := danger acc;
       dangerTypes := dangerTypes acc;
       healthStatus := healthStatus acc |}
  else if strict_eq (Point.type curr) "Peligro" then
    let dType := or_str (Point.danger_type curr) "Desconocido" in
    let hStatus := or_str (Point.health_status curr) "Desconocido" in
    {| adults := adults acc;
       calves := calves acc;
       danger := danger acc + 1;
       dangerTypes := bump (dangerTypes acc) dType;
       healthStatus := bump (healthStatus acc) hStatus |}
  else acc.

Definition stats_init : Stats :=
  {| adults := 0; calves := 0; danger := 0;
     dangerTypes := ∅; healthStatus := ∅ |}.

Definition stats (filteredPoints : list Point.t) : Stats :=
  fold_left stats_step filteredPoints stats_init.

(** The count a cell holds; a text is no count. *)
Definition cell_count (c : Cell) : Z :=
  match c with
  | Num n => n
  | Text _ _ => 0
  end.

(** Sum of the counts held by a histogram. *)
Definition histogram_total (h : gmap string Cell) : Z :=
  map_fold (λ _ c acc, cell_count c + acc) 0 h.

(** ** Dates: the part of [date-fns] the component calls *)

(** A JavaScript [Date]: [Some ms] or [Invalid Date]. *)
Definition Date : Type := option Z.

(** [a >= b] and [a <= b] on dates compare the time values; a comparison
    with [NaN] is false. *)
Definition date_ge (a b : Date) : bool :=
  match a, b with
  | Some x, Some y => y <=? x
  | _, _ => false
  end.

Definition date_le (a b : Date) : bool :=
  match a, b with
  | Some x, Some y => x <=? y
  | _, _ => false
  end.

(** Modelled from the documentation of [date-fns], which is not part of the
    repository: [parseISO] returns [Invalid Date] for a string it cannot
    parse; [startOfDay] and [endOfDay] map a date to the first and the last
    millisecond of its day in the local zone.  For an argument that is not
    a string, versions 2 return [Invalid Date], while versions 3 and 4 call
    [split] on it and raise a [TypeError]: [rejects_non_string] tells which,
    and when it holds the value of [parseISO None] stands for nothing. *)
Class DateLib : Type := {
  parseISO : option string → Date;
  startOfDay : Date → Date;
  endOfDay : Date → Date;
  rejects_non_string : bool
}.

(** ** Filters ([filteredPoints], [filteredTrips]) *)

Record Filters : Type := mkFilters {
  filterUser : string;
  filterStartDate : string;
  filterEndDate : string;
  filterTrip : string;
  activeLayers : gmap string bool
}.

(** The initial value of the [activeLayers] state, and [toggleLayer]. *)
Definition activeLayers_init : gmap string bool :=
  <["Inicio" := true]> (<["Fin" := true]> (<["Avistamiento" := true]>
    (<["Peligro" := true]> ∅))).

Definition toggleLayer (type : string) (prev : gmap string bool)
  : gmap string bool :=
  <[type := negb (truthy_at prev type)]> prev.

(** [trips.filter(t => t.user_id === filterUser).map(t => t.id)] *)
Definition userTripIds (trips : list Trip.t) (user : string) : list string :=
  map Trip.id (List.filter (λ t, strict_eq (Trip.user_id t) user) trips).

Definition filteredTrips (trips : list Trip.t) (f : Filters) : list Trip.t :=
  if String.eqb (filterUser f) "all" then trips
  else List.filter (λ t, strict_eq (Trip.user_id t) (filterUser f)) trips.

Section Pipeline.
Context {lib : DateLib}.
Variable tripsNow : list Trip.t.
Variable f : Filters.

(** Lines 125-128. *)
Definition user_pred (p : Point.t) : bool :=
  includes (userTripIds tripsNow (filterUser f)) (Point.trip_id p).

Definition user_stage (result : list Point.t) : list Point.t :=
  if negb (String.eqb (filterUser f) "all")
  then List.filter user_pred result
  else result.

(** Lines 130-139: the callback of the date filter. *)
Definition date_pred (p : Point.t) : bool :=
  let pDate := parseISO (Point.created_at p) in
  if truthy_str (filterStartDate f) && truthy_str (filterEndDate f) then
    date_ge pDate (startOfDay (parseISO (Some (filterStartDate f))))
    && date_le pDate (endOfDay (parseISO (Some (filterEndDate f))))
  else if truthy_str (filterStartDate f) then
    date_ge pDate (startOfDay (parseISO (Some (filterStartDate f))))
  else
    date_le pDate (endOfDay (parseISO (Some (filterEndDate f)))).

(** Lines 129-140. *)
Definition date_stage (result : list Point.t) : list Point.t :=
  if truthy_str (filterStartDate f) || truthy_str (filterEndDate f)
  then List.filter date_pred result
  else result.

(** Whether the callback raises on a point: line 131 hands [p.created_at]
    to [parseISO] without a guard (the bounds it parses are strings). *)
Definition date_pred_raises (p : Point.t) : bool :=
  rejects_non_string
  && match Point.created_at p with
     | Some _ => false
     | None => true
     end.

(** Whether the date filter raises on a sequence. *)
Definition date_stage_raises (result : list Point.t) : bool :=
  (truthy_str (filterStartDate f) || truthy_str (filterEndDate f))
  && existsb date_pred_raises result.

(** Lines 141-143. *)
Definition trip_pred (p : Point.t) : bool :=
  strict_eq (Point.trip_id p) (filterTrip f).

Definition trip_stage (result : list Point.t) : list Point.t :=
  if negb (String.eqb (filterTrip f) "all")
  then List.filter trip_pred result
  else result.

(** Line 144. *)
Definition layer_pred (p : Point.t) : bool :=
  truthy_at (activeLayers f) (to_key (Point.type p)).

Definition layer_stage (result : list Point.t) : list Point.t :=
  List.filter layer_pred result.

Definition filteredPoints (pts : list Point.t) : list Point.t :=
  layer_stage (trip_stage (date_stage (user_stage pts))).

(** Whether computing [filteredPoints] raises: only the date filter can,
    on what the user stage hands it. *)
Definition filteredPoints_raises (pts : list Point.t) : bool :=
  date_stage_raises (user_stage pts).

(** The four stages by name, to run them in another order. *)
Inductive Stage : Type := UserStage | DateStage | TripStage | LayerStage.

Definition run_stage (s : Stage) : list Point.t → list Point.t :=
  match s with
  | UserStage => user_stage
  | DateStage => date_stage
  | TripStage => trip_stage
  | LayerStage => layer_stage
  end.

Definition run_stages (order : list Stage) (pts : list Point.t)
  : list Point.t :=
  fold_left (λ result s, run_stage s result) order pts.

(** What each stage keeps, whether or not its filter is switched on. *)
Definition stage_keeps (s : Stage) (p : Point.t) : bool :=
  match s with
  | UserStage =>
      if negb (String.eqb (filterUser f) "all") then user_pred p else true
  | DateStage =>
      if truthy_str (filterStartDate f) || truthy_str (filterEndDate f)
      then date_pred p else true
  | TripStage =>
      if negb (String.eqb (filterTrip f) "all") then trip_pred p else true
  | LayerStage => layer_pred p
  end.

(** The date range in the words of the specification: the creation
    timestamp lies within [start-of-day(start), end-of-day(end)], an
    unset bound imposing no constraint on its side. *)
Definition after_start (ms : Z) : Prop :=
  filterStartDate f = ""
  ∨ ∃ lo, startOfDay (parseISO (Some (filterStartDate f))) = Some lo
          ∧ lo ≤ ms.

Definition before_end (ms : Z) : Prop :=
  filterEndDate f = ""
  ∨ ∃ hi, endOfDay (parseISO (Some (filterEndDate f))) = Some hi
          ∧ ms ≤ hi.

Definition within_range (p : Point.t) : Prop :=
  ∃ ms, parseISO (Point.created_at p) = Some ms
        ∧ after_start ms ∧ before_end ms.

(** Whether every stage of a run keeps the point. *)
Definition kept_by (order : list Stage) (p : Point.t) : bool :=
  forallb (λ s, stage_keeps s p) order.
End Pipeline.

Definition canonical_order : list Stage :=
  [UserStage; DateStage; TripStage; LayerStage].

(** ** An executable date library for a zone at a constant offset *)

(** Modelled from the documentation of [date-fns]: the calendar forms
    [YYYY-MM-DD], [YYYY-MM-DDTHH:MM] and [YYYY-MM-DDTHH:MM:SS] (with [T] or
    a space), optionally followed by [Z] or [+HH:MM] / [-HH:MM].  A string
    without a zone designator is read in the local zone; the local zone is
    [tz] minutes east of UTC all year.  The other forms the library reads
    (week and ordinal dates, fractions, expanded years) are not covered
    here and come out as [Invalid Date]. *)
Module FixedOffset.

Definition digit (c : ascii) : option Z :=
  let n := Z.of_nat (nat_of_ascii c) in
  if (48 <=? n) && (n <=? 57) then Some (n - 48) else None.

Definition two (a b : ascii) : option Z :=
  match digit a, digit b with
  | Some x, Some y => Some (10 * x + y)
  | _, _ => None
  end.

Definition four (a b c d : ascii) : option Z :=
  match two a b, two c d with
  | Some x, Some y => Some (100 * x + y)
  | _, _ => None
  end.

Definition is_leap (y : Z) : bool :=
  ((y mod 4 =? 0) && negb (y mod 100 =? 0)) || (y mod 400 =? 0).

Definition days_in_month (y m : Z) : Z :=
  if m =? 2 then (if is_leap y then 29 else 28)
  else if (m =? 4) || (m =? 6) || (m =? 9) || (m =? 11) then 30
  else 31.

(** Days from 1970-01-01 to the given civil date (proleptic Gregorian). *)
Definition days_from_civil (y m d : Z) : Z :=
  let y' := if m <=? 2 then y - 1 else y in
  let era := y' / 400 in
  let yoe := y' - era * 400 in
  let doy := (153 * (if 2 <? m then m - 3 else m + 9) + 2) / 5 + d - 1 in
  let doe := yoe * 365 + yoe / 4 - yoe / 100 + doy in
  era * 146097 + doe - 719468.

Definition ms_per_minute : Z := 60000.
Definition ms_per_hour : Z := 3600000.
Definition ms_per_day : Z := 86400000.

(** The date part: days since the epoch and the rest of the input. *)
Definition parse_date (cs : list ascii) : option (Z * list ascii) :=
  match cs with
  | y1 :: y2 :: y3 :: y4 :: "-"%char :: m1 :: m2 :: "-"%char
      :: d1 :: d2 :: rest =>
      match four y1 y2 y3 y4, two m1 m2, two d1 d2 with
      | Some y, Some m, Some d =>
          if (1 <=? m) && (m <=? 12) && (1 <=? d) && (d <=? days_in_month y m)
          then Some (days_from_civil y m d, rest)
          else None
      | _, _, _ => None
      end
  | _ => None
  end.

Definition valid_time (h m s : Z) : bool :=
  if h =? 24 then (m =? 0) && (s =? 0)
  else (s <? 60) && (m <? 60) && (h <? 25).

(** The time part: milliseconds into the day and the rest of the input. *)
Definition parse_time (cs : list ascii) : option (Z * list ascii) :=
  match cs with
  | h1 :: h2 :: ":"%char :: m1 :: m2 :: ":"%char :: s1 :: s2 :: rest =>
      match two h1 h2, two m1 m2, two s1 s2 with
      | Some h, Some m, Some s =>
          if valid_time h m s
          then Some (h * ms_per_hour + m * ms_per_minute + s * 1000, rest)
          else None
      | _, _, _ => None
      end
  | h1 :: h2 :: ":"%char :: m1 :: m2 :: rest =>
      match two h1 h2, two m1 m2 with
      | Some h, Some m =>
          if valid_time h m 0
          then Some (h * ms_per_hour + m * ms_per_minute, rest)
          else None
      | _, _ => None
      end
  | _ => None
  end.

(** The zone designator: minutes east of UTC; the empty designator is
    the local zone. *)
Definition parse_zone (tz : Z) (cs : list ascii) : option Z :=
  match cs with
  | [] => Some tz
  | ["Z"%char] => Some 0
  | [sg; h1; h2; ":"%char; m1; m2] =>
      match two h1 h2, two m1 m2 with
      | Some h, Some m =>
          if m <=? 59 then
            if Ascii.eqb sg "+" then Some (h * 60 + m)
            else if Ascii.eqb sg "-" then Some (- (h * 60 + m))
            else None
          else None
      | _, _ => None
      end
  | _ => None
  end.

Definition parse_chars (tz : Z) (cs : list ascii) : Date :=
  match parse_date cs with
  | Some (days, []) => Some (days * ms_per_day - tz * ms_per_minute)
  | Some (days, sep :: rest) =>
      if Ascii.eqb sep "T" || Ascii.eqb sep " " then
        match parse_time rest with
        | Some (time, zone) =>
            match parse_zone tz zone with
            | Some east =>
                Some (days * ms_per_day + time - east * ms_per_minute)
            | None => None
            end
        | None => None
        end
      else None
  | None => None
  end.

Definition parseISO (tz : Z) (argument : option string) : Date :=
  match argument with
  | Some s => parse_chars tz (list_ascii_of_string s)
  | None => None
  end.

(** [setHours(0, 0, 0, 0)] and [setHours(23, 59, 59, 999)] on a copy. *)
Definition startOfDay (tz : Z) (d : Date) : Date :=
  match d with
  | Some ms =>
      let wall := ms + tz * ms_per_minute in
      Some (wall - wall mod ms_per_day - tz * ms_per_minute)
  | None => None
  end.

Definition endOfDay (tz : Z) (d : Date) : Date :=
  match startOfDay tz d with
  | Some ms => Some (ms + ms_per_day - 1)
  | None => None
  end.

(** The library as versions 2 have it ([Invalid Date] for a non-string)
    and as versions 3 and 4 have it (a [TypeError]). *)
Definition lib (tz : Z) : DateLib :=
  Build_DateLib (parseISO tz) (startOfDay tz) (endOfDay tz) false.

Definition lib_raising (tz : Z) : DateLib :=
  Build_DateLib (parseISO tz) (startOfDay tz) (endOfDay tz) true.

End FixedOffset.

(** ** Scenarios of the specification *)

Module Scenario.

(** Three points: a sighting with two adults and a calf, a hazard "net"
    with health status "injured", a hazard "net" with no health status. *)
Definition sighting : Point.t :=
  Point.mk "p1" (Some "t1") (Some "Avistamiento") None
           (Some 2) (Some 1) None None.

Definition hazard_injured : Point.t :=
  Point.mk "p2" (Some "t1") (Some "Peligro") None
           None None (Some "net") (Some "injured").

Definition hazard_plain : Point.t :=
  Point.mk "p3" (Some "t1") (Some "Peligro") None
           None None (Some "net") None.

Definition aggregate_input : list Point.t :=
  [sighting; hazard_injured; hazard_plain].

(** A hazard whose category and health status are empty strings. *)
Definition hazard_blank : Point.t :=
  Point.mk "p4" (Some "t1") (Some "Peligro") None
           None None (Some "") (Some "").

(** Date range [2024-01-01, 2024-01-01], nothing else restricted. *)
Definition one_day : Filters :=
  {| filterUser := "all";
     filterStartDate := "2024-01-01";
     filterEndDate := "2024-01-01";
     filterTrip := "all";
     activeLayers := activeLayers_init |}.

Definition late_evening : Point.t :=
  Point.mk "p5" (Some "t1") (Some "Inicio") (Some "2024-01-01T23:59:00Z")
           None None None None.

Definition next_day : Point.t :=
  Point.mk "p6" (Some "t1") (Some "Fin") (Some "2024-01-02T00:00:01Z")
           None None None None.

(** Two trips of different users, for the push handlers and the user
    filter. *)
Definition trip_a : Trip.t := Trip.mk "t1" (Some "u1") None.
Definition trip_b : Trip.t := Trip.mk "t2" (Some "u2") None.

Definition only_u1 : Filters :=
  {| filterUser := "u1";
     filterStartDate := "";
     filterEndDate := "";
     filterTrip := "all";
     activeLayers := activeLayers_init |}.

Definition no_trip : Point.t :=
  Point.mk "p7" None (Some "Inicio") None None None None None.

Definition dangling : Point.t :=
  Point.mk "p8" (Some "t9") (Some "Inicio") None None None None None.

(** A sighting of a herd of [n] adults, and a hazard whose category and
    health status are both the text [__proto__]. *)
Definition herd (n : Z) : Point.t :=
  Point.mk "p10" (Some "t1") (Some "Avistamiento") None
           (Some n) None None None.

Definition hazard_proto : Point.t :=
  hazard_row "p11" (Some "t1") None (Some "__proto__") (Some "__proto__").

End Scenario.

(** ** What the reducer counts *)

Definition is_sighting (p : Point.t) : bool :=
  strict_eq (Point.type p) "Avistamiento".

Definition is_hazard (p : Point.t) : bool :=
  strict_eq (Point.type p) "Peligro".

(** The hazard category and the health status after defaulting (lines 160
    and 162). *)
Definition dType (p : Point.t) : string :=
  or_str (Point.danger_type p) "Desconocido".

Definition hStatus (p : Point.t) : string :=
  or_str (Point.health_status p) "Desconocido".

(** Sum of a count column over the sightings of a sequence. *)
Definition sighted (field : Point.t → option Z) (l : list Point.t) : Z :=
  foldr (λ p n, or_num (field p) 0 + n) 0 (List.filter is_sighting l).

(** Number of hazards of a sequence carrying a given label. *)
Definition occurrences (label : Point.t → string) (k : string)
    (l : list Point.t) : Z :=
  Z.of_nat (length (List.filter (λ p, is_hazard p && String.eqb (label p) k) l)).

(** Sum of the magnitudes of a count column over the sightings: when it
    is below 2^53 every partial sum, in any order, is exact. *)
Definition magnitude (field : Point.t → option Z) (l : list Point.t) : Z :=
  foldr (λ p n, Z.abs (or_num (field p) 0) + n) 0 (List.filter is_sighting l).

Definition exact_range (l : list Point.t) : Prop :=
  magnitude Point.adults l < 2 ^ 53 ∧ magnitude Point.calves l < 2 ^ 53.

(** What a histogram holds under a label carried by [n] hazards: no key
    for none; a count under a label found nowhere on [Object.prototype];
    under an inherited name, nothing for [__proto__] and a text for the
    others. *)
Definition cell_of (k : string) (n : Z) : option Cell :=
  if n =? 0 then None
  else if inherited k then
    if String.eqb k "__proto__" then None else Some (Text k (Z.to_nat n))
  else Some (Num n).

(** The count a histogram holds under a label, 0 when it holds none. *)
Definition count_at (h : gmap string Cell) (k : string) : Z :=
  match h !! k with
  | Some c => cell_count c
  | None => 0
  end.

(** Whether some hazard of the sequence is labelled [__proto__]. *)
Definition proto_labelled (l : list Point.t) : bool :=
  existsb (λ p, is_hazard p
                && (String.eqb (dType p) "__proto__"
                    || String.eqb (hStatus p) "__proto__")) l.

(** ** The chart ([chartData], lines 169-181 and 211-216) *)

(** [prev === 'danger' ? 'health' : 'danger'] *)
Definition toggleChart (prev : string) : string :=
  if String.eqb prev "danger" then "health" else "danger".

(** [chartType === 'danger' ? stats.dangerTypes : stats.healthStatus] *)
Definition dataSource (chartType : string) (s : Stats) : gmap string Cell :=
  if String.eqb chartType "danger" then dangerTypes s else healthStatus s.

(** [Object.keys(dataSource).length > 0]: the pie is drawn, otherwise the
    "no data" notice. *)
Definition chart_shown (chartType : string) (s : Stats) : bool :=
  (0 <? size (dataSource chartType s))%nat.

(** ** Marker icons ([getMarkerIcon], lines 34-48) and the colour dot of the
    layer menu (line 362) *)

Definition colors : gmap string string :=
  <["Inicio" := "#43e97b"]> (<["Fin" := "#F44336"]>
    (<["Avistamiento" := "#4facfe"]> (<["Peligro" := "#fd79a8"]> ∅))).

(** [colors[type] || '#888'], when it is a colour: an own entry of the
    table, or the default for a name found nowhere.  For a name that
    [Object.prototype] defines the value is the inherited member, whose
    text in the markup depends on the engine: [None]. *)
Definition marker_color (type : option string) : option string :=
  match colors !! to_key type with
  | Some c => Some (or_str (Some c) "#888")
  | None => if inherited (to_key type) then None else Some "#888"
  end.

(** The double quote character, as a string. *)
Definition dquote : string := String "034"%char EmptyString.

(** The [html] option of an icon of a given colour. *)
Definition icon_html (color : string) : string :=
  String.append "<div style="
    (String.append dquote
      (String.append "background-color: "
        (String.append color
          (String.append
             "; width: 12px; height: 12px; border-radius: 50%; border: 2px solid white; box-shadow: 0 0 5px rgba(0,0,0,0.5);"
             (String.append dquote "></div>"))))).

(** The class [\w] of regular expressions. *)
Definition is_word (c : ascii) : bool :=
  let n := nat_of_ascii c in
  ((48 <=? n) && (n <=? 57) || (65 <=? n) && (n <=? 90)
   || (97 <=? n) && (n <=? 122) || (n =? 95))%nat.

(** The longest run of word characters at the head of a string. *)
Fixpoint word_run (s : string) : string :=
  match s with
  | String c rest => if is_word c then String c (word_run rest) else EmptyString
  | EmptyString => EmptyString
  end.

(** [Some rest] when the string is the prefix followed by [rest]. *)
Fixpoint strip_prefix (prefix s : string) : option string :=
  match prefix, s with
  | EmptyString, _ => Some s
  | String a prefix', String b s' =>
      if Ascii.eqb a b then strip_prefix prefix' s' else None
  | String _ _, EmptyString => None
  end.

(** The regular expression [/background-color: (#\w+)/] tried at the head
    of a string: the text of its group. *)
Definition color_here (s : string) : option string :=
  match strip_prefix "background-color: #" s with
  | Some rest =>
      let w := word_run rest in
      if truthy_str w then Some (String "#" w) else None
  | None => None
  end.

(** [s.match(/background-color: (#\w+)/)]: the group of the leftmost match,
    [None] when the result is [null] (reading [[1]] then throws). *)
Fixpoint match_color (s : string) : option string :=
  match color_here s with
  | Some group => Some group
  | None =>
      match s with
      | String _ rest => match_color rest
      | EmptyString => None
      end
  end.

(** Line 362: the colour of the dot shown for a layer, when the marker
    has a colour. *)
Definition dot_color (type : string) : option string :=
  match marker_color (Some type) with
  | Some color => match_color (icon_html color)
  | None => None
  end.

(** ** User options (line 263) *)

Module Profile.
Record t : Type := mk {
  id : string;
  full_name : option string
}.
End Profile.

(** [s.split('-')[0]] *)
Fixpoint first_segment (s : string) : string :=
  match s with
  | String c rest =>
      if Ascii.eqb c "-" then EmptyString else String c (first_segment rest)
  | EmptyString => EmptyString
  end.

(** [p.full_name || p.id.split('-')[0]] *)
Definition profile_label (p : Profile.t) : string :=
  or_str (Profile.full_name p) (first_segment (Profile.id p)).

(** ** The component state and its handlers *)

(** [showControls] *)
Record Controls : Type := mkControls {
  layers : bool;
  maps : bool
}.

(** Lines 352 and 372. *)
Definition clickLayers (prev : Controls) : Controls :=
  {| layers := negb (layers prev); maps := false |}.

Definition clickMaps (prev : Controls) : Controls :=
  {| layers := false; maps := negb (maps prev) |}.

Record App : Type := mkApp {
  session : Session;
  profiles : list Profile.t;
  loading : bool;
  filters : Filters;
  chartType : string;
  baseMap : string;
  showControls : Controls;
  fitTrigger : Z
}.

(** The [useState] initial values (lines 63-84). *)
Definition filters_init : Filters :=
  {| filterUser := "all"; filterStartDate := ""; filterEndDate := "";
     filterTrip := "all"; activeLayers := activeLayers_init |}.

Definition app_init : App :=
  {| session := {| trips := []; points := [] |};
     profiles := [];
     loading := true;
     filters := filters_init;
     chartType := "danger";
     baseMap := "streets";
     showControls := {| layers := false; maps := false |};
     fitTrigger := 0 |}.

(** What can happen to the component: a push notification, a state update
    made by [fetchInitialData], or an interaction with a control. *)
Inductive Action : Type :=
  | Pushed (e : Push)
  | SetLoading (b : bool)
  | SetProfiles (data : option (list Profile.t))
  | SetTrips (data : option (list Trip.t))
  | SetPoints (data : option (list Point.t))
  | ChangeStartDate (value : string)
  | ChangeEndDate (value : string)
  | ChangeUser (value : string)
  | ChangeTrip (value : string)
  | ClickChart
  | ClickHome
  | ClickLayers
  | ClickMaps
  | ClickLayer (type : string)
  | ClickBaseMap (value : string).

(** [data || []] *)
Definition or_empty {A : Type} (data : option (list A)) : list A :=
  match data with
  | Some rows => rows
  | None => []
  end.

Definition with_session (a : App) (s : Session) : App :=
  mkApp s (profiles a) (loading a) (filters a) (chartType a) (baseMap a)
        (showControls a) (fitTrigger a).

Definition with_filters (a : App) (f : Filters) : App :=
  mkApp (session a) (profiles a) (loading a) f (chartType a) (baseMap a)
        (showControls a) (fitTrigger a).

Definition with_controls (a : App) (c : Controls) : App :=
  mkApp (session a) (profiles a) (loading a) (filters a) (chartType a)
        (baseMap a) c (fitTrigger a).

(** The state after an action. *)
Definition handle (a : App) (act : Action) : App :=
  let f := filters a in
  match act with
  | Pushed e => with_session a (on_push (session a) e)
  | SetLoading b =>
      mkApp (session a) (profiles a) b (filters a) (chartType a) (baseMap a)
            (showControls a) (fitTrigger a)
  | SetProfiles data =>
      mkApp (session a) (or_empty data) (loading a) (filters a) (chartType a)
            (baseMap a) (showControls a) (fitTrigger a)
  | SetTrips data =>
      with_session a {| trips := or_empty data; points := points (session a) |}
  | SetPoints data =>
      with_session a {| trips := trips (session a); points := or_empty data |}
  | ChangeStartDate value =>
      with_filters a (mkFilters (filterUser f) value (filterEndDate f)
                                (filterTrip f) (activeLayers f))
  | ChangeEndDate value =>
      with_filters a (mkFilters (filterUser f) (filterStartDate f) value
                                (filterTrip f) (activeLayers f))
  | ChangeUser value =>
      with_filters a (mkFilters value (filterStartDate f) (filterEndDate f)
                                "all" (activeLayers f))
  | ChangeTrip value =>
      with_filters a (mkFilters (filterUser f) (filterStartDate f)
                                (filterEndDate f) value (activeLayers f))
  | ClickChart =>
      mkApp (session a) (profiles a) (loading a) (filters a)
            (toggleChart (chartType a)) (baseMap a) (showControls a)
            (fitTrigger a)
  | ClickHome =>
      mkApp (session a) (profiles a) (loading a) (filters a) (chartType a)
            (baseMap a) (showControls a) (fitTrigger a + 1)
  | ClickLayers => with_controls a (clickLayers (showControls a))
  | ClickMaps => with_controls a (clickMaps (showControls a))
  | ClickLayer type =>
      with_filters a (mkFilters (filterUser f) (filterStartDate f)
                                (filterEndDate f) (filterTrip f)
                                (toggleLayer type (activeLayers f)))
  | ClickBaseMap value =>
      mkApp (session a) (profiles a) (loading a) (filters a) (chartType a)
            value (showControls a) (fitTrigger a)
  end.

(** Whether the rendered page offers the action: the user select lists
    ['all'] and the profiles (lines 260-265); the trip select exists only
    when a user is chosen and lists ['all'] and [filteredTrips] (lines
    268-278); the layer buttons exist only while the layer menu is open, one
    per key of [activeLayers] (lines 358-366); the two base-map buttons
    exist only while the map menu is open (lines 378-387). *)
Definition offered (a : App) (act : Action) : bool :=
  match act with
  | ChangeUser value =>
      String.eqb value "all"
      || existsb (String.eqb value) (map Profile.id (profiles a))
  | ChangeTrip value =>
      negb (String.eqb (filterUser (filters a)) "all")
      && (String.eqb value "all"
          || existsb (String.eqb value)
               (map Trip.id (filteredTrips (trips (session a)) (filters a))))
  | ClickLayer type =>
      layers (showControls a)
      && match activeLayers (filters a) !! type with
         | Some _ => true
         | None => false
         end
  | ClickBaseMap value =>
      maps (showControls a)
      && (String.eqb value "streets" || String.eqb value "satellite")
  | _ => true
  end.

(** A run of actions; [None] when one of them is not on offer. *)
Fixpoint run (a : App) (acts : list Action) : option App :=
  match acts with
  | [] => Some a
  | act :: rest => if offered a act then run (handle a act) rest else None
  end.

Definition is_SetTrips (act : Action) : bool :=
  match act with
  | SetTrips _ => true
  | _ => false
  end.

(** The selected trip is ['all'] or a trip of the selected user. *)
Definition trip_choice_ok (a : App) : Prop :=
  filterTrip (filters a) = "all"
  ∨ In (filterTrip (filters a))
       (userTripIds (trips (session a)) (filterUser (filters a))).

Definition layer_names : list string :=
  ["Inicio"; "Fin"; "Avistamiento"; "Peligro"].

(** ** [fetchInitialData] (lines 92-106) *)

(** The outcome of awaiting a query: a response with its [data], or an
    exception. *)
Inductive Reply (A : Type) : Type :=
  | Resolved (data : option (list A))
  | Rejected.

Arguments Resolved {A} data.
Arguments Rejected {A}.

(** The state updates the function makes, in order: the first exception
    jumps to the handler, and the [finally] clause always runs. *)
Definition fetchInitialData (rp : Reply Profile.t) (rt : Reply Trip.t)
    (rd : Reply Point.t) : list Action :=
  SetLoading true
  :: match rp with
     | Rejected => []
     | Resolved profileData =>
         SetProfiles profileData
         :: match rt with
            | Rejected => []
            | Resolved tripData =>
                SetTrips tripData
                :: match rd with
                   | Rejected => []
                   | Resolved pointData => [SetPoints pointData]
                   end
            end
     end
  ++ [SetLoading false].

(** * Properties *)

(** ** Push handlers *)

Lemma on_pushes_app s es1 es2 :
  on_pushes s (es1 ++ es2) = on_pushes (on_pushes s es1) es2.
Proof. unfold on_pushes. apply fold_left_app. Qed.

Lemma on_pushes_trips es : ∀ s,
  trips (on_pushes s es) = rev (pushed_trips es) ++ trips s.
Proof.
  induction es as [|e es IH]; intros s; [reflexivity|].
  change (on_pushes s (e :: es)) with (on_pushes (on_push s e) es).
  rewrite IH. destruct e as [p|t]; simpl; [reflexivity|].
  by rewrite <- app_assoc.
Qed.

Lemma on_pushes_points es : ∀ s,
  points (on_pushes s es) = points s ++ pushed_points es.
Proof.
  induction es as [|e es IH]; intros s.
  - simpl. by rewrite app_nil_r.
  - change (on_pushes s (e :: es)) with (on_pushes (on_push s e) es).
    rewrite IH. destruct e as [p|t]; simpl; [|reflexivity].
    by rewrite <- app_assoc.
Qed.

(** C1, as stated, fails: with one fetched trip and one pushed trip the
    collection is not the fetched trip followed by the pushed one. *)
Lemma C1_trip_push_is_not_an_append :
  trips (on_pushes (mkSession [Scenario.trip_a] []) [InsertTrips Scenario.trip_b])
  ≠ [Scenario.trip_a] ++ pushed_trips [InsertTrips Scenario.trip_b].
Proof. vm_compute. discriminate. Qed.

(** C1 (amended): a pushed trip is put at the front of the trip collection;
    after any sequence of push events the collection holds the pushed
    trips, latest first, followed by the initially fetched trips. *)
Theorem C1_trip_pushes_prepended (s : Session) (es : list Push) :
  trips (on_pushes s es) = rev (pushed_trips es) ++ trips s.
Proof. apply on_pushes_trips. Qed.

(** ** The aggregation scenario *)

(** C2, as stated, fails: the point without a health status is not counted
    under the key "Unknown". *)
Lemma C2_no_Unknown_bucket :
  stats Scenario.aggregate_input
  ≠ {| adults := 2; calves := 1; danger := 2;
       dangerTypes := {[ "net" := Num 2 ]};
       healthStatus := <["injured" := Num 1]> {[ "Unknown" := Num 1 ]} |}.
Proof.
  intros H.
  apply (f_equal (λ s, healthStatus s !! "Unknown")) in H.
  vm_compute in H. discriminate.
Qed.

(** C2 (amended): on the scenario the aggregator returns adults 2, calves 1,
    danger count 2, hazard histogram {net: 2} and health histogram
    {injured: 1, Desconocido: 1}; an absent health status is counted under
    the literal key "Desconocido". *)
Theorem C2_scenario_aggregate :
  stats Scenario.aggregate_input
  = {| adults := 2; calves := 1; danger := 2;
       dangerTypes := {[ "net" := Num 2 ]};
       healthStatus := <["injured" := Num 1]> {[ "Desconocido" := Num 1 ]} |}.
Proof. vm_compute. reflexivity. Qed.

(** ** Array [filter]: generalities *)

Section ArrayFilter.
Context {A : Type}.
Implicit Types (keep : A → bool) (l : list A).

Lemma array_filter_all keep l :
  (∀ x, keep x = true) → List.filter keep l = l.
Proof.
  intros Hall. induction l as [|x l IH]; simpl; [reflexivity|].
  rewrite Hall. by f_equal.
Qed.

Lemma array_filter_twice keep1 keep2 l :
  List.filter keep2 (List.filter keep1 l)
  = List.filter (λ x, keep1 x && keep2 x) l.
Proof.
  induction l as [|x l IH]; simpl; [reflexivity|].
  destruct (keep1 x); simpl; [|exact IH].
  destruct (keep2 x); [by f_equal | exact IH].
Qed.

Lemma array_filter_sublist keep l : List.filter keep l `sublist_of` l.
Proof.
  induction l as [|x l IH]; simpl; [constructor|].
  destruct (keep x); by constructor.
Qed.

Lemma array_filter_elem keep l x :
  x ∈ List.filter keep l ↔ x ∈ l ∧ keep x = true.
Proof. rewrite !list_elem_of_In. apply filter_In. Qed.

Lemma array_filter_drop keep l1 l2 x :
  keep x = false →
  List.filter keep (l1 ++ x :: l2) = List.filter keep (l1 ++ l2).
Proof.
  intros Hx. rewrite !List.filter_app. simpl. by rewrite Hx.
Qed.
End ArrayFilter.

(** ** Stages as filters *)

Section Stages.
Context {lib : DateLib}.
Variable tripsNow : list Trip.t.
Variable f : Filters.

Lemma run_stage_filter (s : Stage) (l : list Point.t) :
  run_stage tripsNow f s l = List.filter (stage_keeps tripsNow f s) l.
Proof.
  destruct s; unfold run_stage, stage_keeps.
  - unfold user_stage.
    destruct (negb (String.eqb (filterUser f) "all")); [reflexivity|].
    symmetry. by apply array_filter_all.
  - unfold date_stage.
    destruct (truthy_str (filterStartDate f) || truthy_str (filterEndDate f));
      [reflexivity|].
    symmetry. by apply array_filter_all.
  - unfold trip_stage.
    destruct (negb (String.eqb (filterTrip f) "all")); [reflexivity|].
    symmetry. by apply array_filter_all.
  - reflexivity.
Qed.

Lemma run_stages_filter (order : list Stage) : ∀ l,
  run_stages tripsNow f order l = List.filter (kept_by tripsNow f order) l.
Proof.
  induction order as [|s order IH]; intros l.
  - simpl. symmetry. by apply array_filter_all.
  - change (run_stages tripsNow f (s :: order) l)
      with (run_stages tripsNow f order (run_stage tripsNow f s l)).
    rewrite IH, run_stage_filter, array_filter_twice. reflexivity.
Qed.

Lemma filteredPoints_run (l : list Point.t) :
  filteredPoints tripsNow f l = run_stages tripsNow f canonical_order l.
Proof. reflexivity. Qed.


Lemma filteredPoints_elem (l : list Point.t) (p : Point.t) :
  p ∈ filteredPoints tripsNow f l ↔ p ∈ l ∧ kept_by tripsNow f canonical_order p = true.
Proof.
  rewrite filteredPoints_run, run_stages_filter. apply array_filter_elem.
Qed.

Lemma date_stage_elem (l : list Point.t) (p : Point.t) :
  p ∈ date_stage f l ↔ p ∈ l ∧ stage_keeps tripsNow f DateStage p = true.
Proof.
  change (date_stage f l) with (run_stage tripsNow f DateStage l).
  rewrite run_stage_filter. apply array_filter_elem.
Qed.
End Stages.

Lemma truthy_str_true (s : string) : truthy_str s = true ↔ s ≠ "".
Proof.
  unfold truthy_str. destruct (String.eqb_spec s ""); simpl; split;
    congruence.
Qed.

Lemma truthy_str_false (s : string) : truthy_str s = false ↔ s = "".
Proof.
  unfold truthy_str. destruct (String.eqb_spec s ""); simpl; split;
    congruence.
Qed.

Lemma date_ge_Some (a b : Date) :
  date_ge a b = true ↔ ∃ x y, a = Some x ∧ b = Some y ∧ y ≤ x.
Proof.
  destruct a as [x|], b as [y|]; simpl; split;
    try (intros (?&?&?&?&?); congruence); try discriminate.
  - intros H. exists x, y. repeat split. lia.
  - intros (x'&y'&Hx&Hy&Hle). simplify_eq. lia.
Qed.

Lemma date_le_Some (a b : Date) :
  date_le a b = true ↔ ∃ x y, a = Some x ∧ b = Some y ∧ x ≤ y.
Proof.
  destruct a as [x|], b as [y|]; simpl; split;
    try (intros (?&?&?&?&?); congruence); try discriminate.
  - intros H. exists x, y. repeat split. lia.
  - intros (x'&y'&Hx&Hy&Hle). simplify_eq. lia.
Qed.

(** ** The date stage *)

Lemma date_pred_within_range {lib : DateLib} (f : Filters) (p : Point.t) :
  truthy_str (filterStartDate f) || truthy_str (filterEndDate f) = true →
  date_pred f p = true ↔ within_range f p.
Proof.
  intros Hon. unfold date_pred, within_range, after_start, before_end.
  destruct (truthy_str (filterStartDate f)) eqn:Hs;
    destruct (truthy_str (filterEndDate f)) eqn:He; simpl in Hon |- *;
    try discriminate;
    repeat match goal with
    | H : truthy_str _ = true |- _ => apply truthy_str_true in H
    | H : truthy_str _ = false |- _ => apply truthy_str_false in H
    end.
  - rewrite andb_true_iff, date_ge_Some, date_le_Some. split.
    + intros [(x&lo&Hx&Hlo&?) (x'&hi&Hx'&Hhi&?)]. simplify_eq.
      exists x. split; [done|]. split; right; eauto.
    + intros (ms&Hms&[?|(lo&Hlo&?)]&[?|(hi&Hhi&?)]); try congruence.
      split; eauto 10.
  - rewrite date_ge_Some. split.
    + intros (x&lo&Hx&Hlo&?). exists x. split; [done|]. split; [right|left]; eauto.
    + intros (ms&Hms&[?|(lo&Hlo&?)]&_); try congruence. eauto 10.
  - rewrite date_le_Some. split.
    + intros (x&hi&Hx&Hhi&?). exists x. split; [done|]. split; [left|right]; eauto.
    + intros (ms&Hms&_&[?|(hi&Hhi&?)]); try congruence. eauto 10.
Qed.

(** C3, as stated, fails: the day bounds are those of the local zone, and
    in a zone four hours west of UTC the point stamped
    2024-01-02T00:00:01Z is kept by the range [2024-01-01, 2024-01-01]. *)
Lemma C3_next_day_kept_west_of_UTC :
  @date_stage (FixedOffset.lib (-240)) Scenario.one_day
    [Scenario.late_evening; Scenario.next_day]
  = [Scenario.late_evening; Scenario.next_day].
Proof. vm_compute. reflexivity. Qed.

(** C3 (amended): the day bounds are taken in the local zone.  With the
    range [2024-01-01, 2024-01-01] and UTC as the local zone, the stage
    keeps the point stamped 2024-01-01T23:59:00Z and drops the one stamped
    2024-01-02T00:00:01Z.  In general, when no bound is set every point
    passes, and otherwise a point passes iff its timestamp parses and lies
    within [start-of-day(start), end-of-day(end)], an unset bound imposing
    no constraint on its side. *)
Theorem C3_date_stage_local_days :
  @date_stage (FixedOffset.lib 0) Scenario.one_day
    [Scenario.late_evening; Scenario.next_day]
  = [Scenario.late_evening]
  ∧ ∀ (lib : DateLib) (f : Filters) (pts : list Point.t) (p : Point.t),
      p ∈ date_stage f pts ↔
      p ∈ pts ∧ ((filterStartDate f = "" ∧ filterEndDate f = "")
                 ∨ within_range f p).
Proof.
  split; [vm_compute; reflexivity|].
  intros lib f pts p. rewrite (date_stage_elem []). simpl.
  destruct (truthy_str (filterStartDate f) || truthy_str (filterEndDate f))
    eqn:Hon.
  - rewrite (date_pred_within_range f p Hon).
    apply orb_true_iff in Hon. rewrite !truthy_str_true in Hon.
    split; [intros [? ?]; auto|].
    intros [? [[? ?]|?]]; [|done]. destruct Hon; congruence.
  - apply orb_false_iff in Hon. rewrite !truthy_str_false in Hon.
    split; [intros [? _]; auto|]. intros [? _]. done.
Qed.

(** ** The pipeline keeps a subsequence *)

(** C4: for every filter selection and every point collection the filtered
    result is a subsequence of the input: its points occur in the input,
    in the input's order. *)
Theorem C4_filtered_is_subsequence {lib : DateLib}
    (tripsNow : list Trip.t) (f : Filters) (pts : list Point.t) :
  filteredPoints tripsNow f pts `sublist_of` pts
  ∧ filteredPoints tripsNow f pts ⊆ pts.
Proof.
  assert (filteredPoints tripsNow f pts `sublist_of` pts) as Hsub.
  { rewrite filteredPoints_run, run_stages_filter.
    apply array_filter_sublist. }
  split; [exact Hsub|]. intros p Hp. by eapply elem_of_sublist.
Qed.

(** ** The stages commute *)



(** ** Points without a usable timestamp *)

(** Once a date bound is set, a point whose creation timestamp comes out
    of [parseISO] as [Invalid Date] is left out by the date stage, hence by
    the pipeline, whose result is the one it has without that point. *)
Lemma invalid_date_excluded {lib : DateLib}
    (tripsNow : list Trip.t) (f : Filters) (p : Point.t)
    (before after : list Point.t) :
  filterStartDate f ≠ "" ∨ filterEndDate f ≠ "" →
  parseISO (Point.created_at p) = None →
  date_pred f p = false
  ∧ (p ∉ date_stage f (before ++ p :: after))
  ∧ (p ∉ filteredPoints tripsNow f (before ++ p :: after))
  ∧ filteredPoints tripsNow f (before ++ p :: after)
    = filteredPoints tripsNow f (before ++ after).
Proof.
  intros Hset Hnan.
  assert (truthy_str (filterStartDate f) || truthy_str (filterEndDate f)
          = true) as Hon.
  { apply orb_true_iff. by rewrite !truthy_str_true. }
  assert (date_pred f p = false) as Hpred.
  { destruct (date_pred f p) eqn:Hp; [|reflexivity].
    apply (date_pred_within_range f p Hon) in Hp.
    destruct Hp as (ms & Hms & _). congruence. }
  assert (stage_keeps tripsNow f DateStage p = false) as Hkeep.
  { simpl. by rewrite Hon. }
  assert (kept_by tripsNow f canonical_order p = false) as Hnone.
  { unfold kept_by, canonical_order, forallb. rewrite Hkeep.
    by rewrite andb_false_r. }
  split; [exact Hpred|]. split; [|split].
  - rewrite (date_stage_elem tripsNow). intros [_ ?]. congruence.
  - rewrite filteredPoints_elem. intros [_ ?]. congruence.
  - rewrite !filteredPoints_run, !run_stages_filter.
    by apply array_filter_drop.
Qed.

(** C7, at the failing input: with a date library whose [parseISO] raises
    on an argument that is not a string, a date bound set and no user
    selected, a point with no creation timestamp makes the computation of
    the filtered sequence raise: line 131 parses [p.created_at] without the
    guard that line 301 has. *)
Theorem C7_absent_timestamp_raises {lib : DateLib}
    (tripsNow : list Trip.t) (f : Filters) (p : Point.t)
    (before after : list Point.t) :
  rejects_non_string = true →
  filterStartDate f ≠ "" ∨ filterEndDate f ≠ "" →
  filterUser f = "all" →
  Point.created_at p = None →
  filteredPoints_raises tripsNow f (before ++ p :: after) = true.
Proof.
  intros Hraises Hset Hall Habsent.
  unfold filteredPoints_raises, date_stage_raises, user_stage.
  rewrite Hall. simpl. apply andb_true_iff. split.
  - apply orb_true_iff. by rewrite !truthy_str_true.
  - apply existsb_exists. exists p. split; [apply in_elt|].
    unfold date_pred_raises. by rewrite Hraises, Habsent.
Qed.

Lemma C7_absent_timestamp_raises_witness :
  @rejects_non_string (FixedOffset.lib_raising 0) = true
  ∧ (filterStartDate Scenario.one_day ≠ "" ∨ filterEndDate Scenario.one_day ≠ "")
  ∧ filterUser Scenario.one_day = "all"
  ∧ Point.created_at Scenario.no_trip = None
  ∧ @filteredPoints_raises (FixedOffset.lib_raising 0) [Scenario.trip_a]
      Scenario.one_day
      ([Scenario.late_evening] ++ Scenario.no_trip :: [Scenario.next_day])
    = true.
Proof.
  assert (filterStartDate Scenario.one_day ≠ ""
          ∨ filterEndDate Scenario.one_day ≠ "") as Hset.
  { left. vm_compute. discriminate. }
  split; [reflexivity|]. split; [exact Hset|].
  split; [reflexivity|]. split; [reflexivity|].
  exact (@C7_absent_timestamp_raises (FixedOffset.lib_raising 0)
           [Scenario.trip_a] Scenario.one_day Scenario.no_trip
           [Scenario.late_evening] [Scenario.next_day]
           eq_refl Hset eq_refl eq_refl).
Defined.

(** ** The user stage and dangling trip references *)

Lemma userTripIds_elem (tripsNow : list Trip.t) (user id : string) :
  id ∈ userTripIds tripsNow user →
  ∃ t, t ∈ tripsNow ∧ Trip.id t = id.
Proof.
  unfold userTripIds. rewrite list_elem_of_fmap.
  intros (t & -> & Ht). apply array_filter_elem in Ht as [Ht _]. eauto.
Qed.

(** C10: when a specific user is selected, a point whose trip identifier is
    absent, or is the identifier of no trip of the collection, is left out
    by the user stage. *)
Theorem C10_user_stage_drops_unowned
    (tripsNow : list Trip.t) (f : Filters) (p : Point.t)
    (pts : list Point.t) :
  filterUser f ≠ "all" →
  (Point.trip_id p = None
   ∨ ∀ t, t ∈ tripsNow → Some (Trip.id t) ≠ Point.trip_id p) →
  user_pred tripsNow f p = false ∧ p ∉ user_stage tripsNow f pts.
Proof.
  intros Huser Hdangling.
  assert (user_pred tripsNow f p = false) as Hpred.
  { unfold user_pred, includes.
    destruct Hdangling as [-> | Hnone]; [reflexivity|].
    destruct (Point.trip_id p) as [v|]; [|reflexivity].
    destruct (existsb _ _) eqn:Hex; [|reflexivity].
    apply existsb_exists in Hex as (id & Hid & Heq).
    apply String.eqb_eq in Heq. subst id.
    apply list_elem_of_In, userTripIds_elem in Hid as (t & Ht & Hv).
    exfalso. apply (Hnone t Ht). by rewrite Hv. }
  split; [exact Hpred|].
  unfold user_stage.
  destruct (String.eqb_spec (filterUser f) "all") as [|_]; [done|]. simpl.
  rewrite array_filter_elem. intros [_ ?]. congruence.
Qed.

Lemma C10_user_stage_drops_unowned_witness :
  filterUser Scenario.only_u1 ≠ "all"
  ∧ (∀ t, t ∈ [Scenario.trip_a; Scenario.trip_b] →
          Some (Trip.id t) ≠ Point.trip_id Scenario.dangling)
  ∧ Scenario.dangling
    ∉ user_stage [Scenario.trip_a; Scenario.trip_b] Scenario.only_u1
        [Scenario.sighting; Scenario.dangling; Scenario.no_trip].
Proof.
  assert (filterUser Scenario.only_u1 ≠ "all") as Huser.
  { vm_compute. discriminate. }
  assert (∀ t, t ∈ [Scenario.trip_a; Scenario.trip_b] →
               Some (Trip.id t) ≠ Point.trip_id Scenario.dangling) as Hnone.
  { intros t Ht. apply list_elem_of_In in Ht.
    destruct Ht as [<- | [<- | []]]; vm_compute; discriminate. }
  split; [exact Huser|]. split; [exact Hnone|].
  exact (proj2 (C10_user_stage_drops_unowned
    [Scenario.trip_a; Scenario.trip_b] Scenario.only_u1 Scenario.dangling
    [Scenario.sighting; Scenario.dangling; Scenario.no_trip]
    Huser (or_intror Hnone))).
Defined.

(** ** Aggregation *)

Lemma strict_eq_true (x : option string) (s : string) :
  strict_eq x s = true ↔ x = Some s.
Proof.
  destruct x as [v|]; simpl; [|split; discriminate].
  rewrite String.eqb_eq. split; congruence.
Qed.

Lemma to_double_exact (z : Z) : Z.abs z < 2 ^ 53 → to_double z = z.
Proof.
  intros Hz. unfold to_double.
  destruct (Z.ltb_spec (Z.abs z) (2 ^ 53)); [reflexivity|lia].
Qed.

Lemma num_add_exact (x y : Z) :
  Z.abs x + Z.abs y < 2 ^ 53 → num_add x y = x + y.
Proof. intros Hxy. unfold num_add. apply to_double_exact. lia. Qed.

Lemma stats_eq (s1 s2 : Stats) :
  adults s1 = adults s2 → calves s1 = calves s2 → danger s1 = danger s2 →
  dangerTypes s1 = dangerTypes s2 → healthStatus s1 = healthStatus s2 →
  s1 = s2.
Proof. destruct s1, s2. simpl. congruence. Qed.

Lemma stats_snoc (l : list Point.t) (p : Point.t) :
  stats (l ++ [p]) = stats_step (stats l) p.
Proof. unfold stats. by rewrite fold_left_app. Qed.

Lemma sighting_is_no_hazard (p : Point.t) :
  is_sighting p = true → is_hazard p = false.
Proof.
  unfold is_sighting, is_hazard. intros H%strict_eq_true. by rewrite H.
Qed.

Lemma stats_step_cases (acc : Stats) (p : Point.t) :
  stats_step acc p
  = if is_sighting p then
      {| adults := num_add (adults acc) (or_num (Point.adults p) 0);
         calves := num_add (calves acc) (or_num (Point.calves p) 0);
         danger := danger acc;
         dangerTypes := dangerTypes acc;
         healthStatus := healthStatus acc |}
    else if is_hazard p then
      {| adults := adults acc;
         calves := calves acc;
         danger := danger acc + 1;
         dangerTypes := bump (dangerTypes acc) (dType p);
         healthStatus := bump (healthStatus acc) (hStatus p) |}
    else acc.
Proof. reflexivity. Qed.

(** *** The sums and counts the reducer is compared with *)

Lemma sighted_cons (field : Point.t → option Z) (p : Point.t)
    (l : list Point.t) :
  sighted field (p :: l)
  = (if is_sighting p then or_num (field p) 0 else 0) + sighted field l.
Proof. unfold sighted. simpl. by destruct (is_sighting p). Qed.

Lemma magnitude_cons (field : Point.t → option Z) (p : Point.t)
    (l : list Point.t) :
  magnitude field (p :: l)
  = (if is_sighting p then Z.abs (or_num (field p) 0) else 0)
    + magnitude field l.
Proof. unfold magnitude. simpl. by destruct (is_sighting p). Qed.

Lemma magnitude_nonneg (field : Point.t → option Z) (l : list Point.t) :
  0 ≤ magnitude field l.
Proof.
  induction l as [|p l IH]; [done|]. rewrite magnitude_cons.
  destruct (is_sighting p); lia.
Qed.

Lemma occurrences_cons (label : Point.t → string) (k : string)
    (p : Point.t) (l : list Point.t) :
  occurrences label k (p :: l)
  = (if is_hazard p && String.eqb (label p) k then 1 else 0)
    + occurrences label k l.
Proof.
  unfold occurrences. simpl.
  destruct (is_hazard p && String.eqb (label p) k); simpl; lia.
Qed.

Lemma hazards_cons (p : Point.t) (l : list Point.t) :
  Z.of_nat (length (List.filter is_hazard (p :: l)))
  = (if is_hazard p then 1 else 0)
    + Z.of_nat (length (List.filter is_hazard l)).
Proof. simpl. destruct (is_hazard p); simpl; lia. Qed.

Lemma sighted_app (field : Point.t → option Z) (l1 l2 : list Point.t) :
  sighted field (l1 ++ l2) = sighted field l1 + sighted field l2.
Proof.
  induction l1 as [|p l1 IH]; [done|].
  change ((p :: l1) ++ l2) with (p :: (l1 ++ l2)).
  rewrite !sighted_cons, IH. lia.
Qed.

Lemma magnitude_app (field : Point.t → option Z) (l1 l2 : list Point.t) :
  magnitude field (l1 ++ l2) = magnitude field l1 + magnitude field l2.
Proof.
  induction l1 as [|p l1 IH]; [done|].
  change ((p :: l1) ++ l2) with (p :: (l1 ++ l2)).
  rewrite !magnitude_cons, IH. lia.
Qed.

Lemma occurrences_app (label : Point.t → string) (k : string)
    (l1 l2 : list Point.t) :
  occurrences label k (l1 ++ l2)
  = occurrences label k l1 + occurrences label k l2.
Proof. unfold occurrences. rewrite List.filter_app, length_app. lia. Qed.

Lemma occurrences_nonneg (label : Point.t → string) (k : string)
    (l : list Point.t) :
  0 ≤ occurrences label k l.
Proof. unfold occurrences. lia. Qed.

Lemma sighted_Permutation (field : Point.t → option Z) (l1 l2 : list Point.t) :
  l1 ≡ₚ l2 → sighted field l1 = sighted field l2.
Proof.
  induction 1 as [|x l1 l2 _ IH|x y l|l1 l2 l3 _ IH1 _ IH2];
    rewrite ?sighted_cons; lia.
Qed.

Lemma magnitude_Permutation (field : Point.t → option Z)
    (l1 l2 : list Point.t) :
  l1 ≡ₚ l2 → magnitude field l1 = magnitude field l2.
Proof.
  induction 1 as [|x l1 l2 _ IH|x y l|l1 l2 l3 _ IH1 _ IH2];
    rewrite ?magnitude_cons; lia.
Qed.

Lemma occurrences_Permutation (label : Point.t → string) (k : string)
    (l1 l2 : list Point.t) :
  l1 ≡ₚ l2 → occurrences label k l1 = occurrences label k l2.
Proof.
  induction 1 as [|x l1 l2 _ IH|x y l|l1 l2 l3 _ IH1 _ IH2];
    rewrite ?occurrences_cons; lia.
Qed.

Lemma hazards_Permutation (l1 l2 : list Point.t) :
  l1 ≡ₚ l2 →
  Z.of_nat (length (List.filter is_hazard l1))
  = Z.of_nat (length (List.filter is_hazard l2)).
Proof.
  induction 1 as [|x l1 l2 _ IH|x y l|l1 l2 l3 _ IH1 _ IH2];
    rewrite ?hazards_cons; lia.
Qed.

(** *** The counters *)

(** While the magnitudes stay below 2^53 no addition rounds, and the two
    counters are the exact sums. *)
Lemma stats_fold_exact (l : list Point.t) : ∀ acc,
  Z.abs (adults acc) + magnitude Point.adults l < 2 ^ 53 →
  Z.abs (calves acc) + magnitude Point.calves l < 2 ^ 53 →
  adults (fold_left stats_step l acc) = adults acc + sighted Point.adults l
  ∧ calves (fold_left stats_step l acc)
    = calves acc + sighted Point.calves l.
Proof.
  induction l as [|p l IH]; intros acc Ha Hc.
  - unfold sighted. simpl. split; lia.
  - rewrite magnitude_cons in Ha, Hc. rewrite !sighted_cons.
    pose proof (magnitude_nonneg Point.adults l).
    pose proof (magnitude_nonneg Point.calves l).
    simpl. rewrite stats_step_cases.
    destruct (is_sighting p).
    + destruct (IH {| adults := num_add (adults acc) (or_num (Point.adults p) 0);
                      calves := num_add (calves acc) (or_num (Point.calves p) 0);
                      danger := danger acc;
                      dangerTypes := dangerTypes acc;
                      healthStatus := healthStatus acc |}) as [-> ->];
        simpl; rewrite ?num_add_exact by lia; lia.
    + destruct (is_hazard p).
      * destruct (IH {| adults := adults acc;
                        calves := calves acc;
                        danger := danger acc + 1;
                        dangerTypes := bump (dangerTypes acc) (dType p);
                        healthStatus := bump (healthStatus acc) (hStatus p) |})
          as [-> ->]; simpl; lia.
      * destruct (IH acc) as [-> ->]; lia.
Qed.

Lemma stats_counters_exact (pts : list Point.t) :
  exact_range pts →
  adults (stats pts) = sighted Point.adults pts
  ∧ calves (stats pts) = sighted Point.calves pts.
Proof.
  intros [Ha Hc]. unfold stats.
  destruct (stats_fold_exact pts stats_init) as [-> ->]; simpl; lia.
Qed.

Lemma stats_fold_danger (l : list Point.t) : ∀ acc,
  danger (fold_left stats_step l acc)
  = danger acc + Z.of_nat (length (List.filter is_hazard l)).
Proof.
  induction l as [|p l IH]; intros acc; [simpl; lia|].
  rewrite hazards_cons.
  change (fold_left stats_step (p :: l) acc)
    with (fold_left stats_step l (stats_step acc p)).
  rewrite IH, stats_step_cases.
  destruct (is_sighting p) eqn:Hs.
  - rewrite (sighting_is_no_hazard p Hs). simpl. lia.
  - destruct (is_hazard p); simpl; lia.
Qed.

Lemma stats_danger (pts : list Point.t) :
  danger (stats pts) = Z.of_nat (length (List.filter is_hazard pts)).
Proof. unfold stats. by rewrite stats_fold_danger. Qed.

(** *** The histograms *)

Lemma bump_other (obj : gmap string Cell) (k k' : string) :
  k' ≠ k → bump obj k' !! k = obj !! k.
Proof.
  intros Hne. unfold bump.
  destruct (obj !! k') as [[n|member ones]|];
    rewrite ?lookup_insert_ne by done; try reflexivity.
  destruct (inherited k'); [|by rewrite lookup_insert_ne].
  destruct (String.eqb k' "__proto__"); [reflexivity|].
  by rewrite lookup_insert_ne.
Qed.

Lemma cell_of_inherited_proto (n : Z) : cell_of "__proto__" n = None.
Proof. unfold cell_of. by destruct (n =? 0). Qed.

Lemma bump_same (obj : gmap string Cell) (k : string) (n : Z) :
  0 ≤ n →
  obj !! k = cell_of k n →
  bump obj k !! k = cell_of k (n + 1).
Proof.
  intros Hn Hk. unfold bump, cell_of in *.
  destruct (Z.eqb_spec (n + 1) 0) as [|_]; [lia|].
  destruct (Z.eqb_spec n 0) as [->|Hpos].
  - rewrite Hk.
    destruct (inherited k);
      [destruct (String.eqb k "__proto__"); [exact Hk|]|];
      by rewrite lookup_insert_eq.
  - destruct (inherited k).
    + destruct (String.eqb k "__proto__").
      * by rewrite Hk.
      * rewrite Hk, lookup_insert_eq. do 2 f_equal. lia.
    + rewrite Hk, lookup_insert_eq. simpl.
      destruct (Z.eqb_spec n 0); [done|reflexivity].
Qed.

Lemma bump_lookup (obj : gmap string Cell) (k k' : string) (n : Z) :
  0 ≤ n →
  obj !! k = cell_of k n →
  bump obj k' !! k = cell_of k (n + (if String.eqb k' k then 1 else 0)).
Proof.
  intros Hn Hk. destruct (String.eqb_spec k' k) as [->|Hne].
  - by apply bump_same.
  - rewrite bump_other by done. by rewrite Z.add_0_r.
Qed.

(** Each histogram holds, under every key, what [cell_of] says for the
    number of hazards carrying that label. *)
Lemma stats_lookup (pts : list Point.t) (k : string) :
  dangerTypes (stats pts) !! k = cell_of k (occurrences dType k pts)
  ∧ healthStatus (stats pts) !! k = cell_of k (occurrences hStatus k pts).
Proof.
  induction pts as [|p pts (Hd & Hh)] using rev_ind; [done|].
  rewrite stats_snoc, !occurrences_app, stats_step_cases.
  unfold occurrences at 2 4. simpl.
  destruct (is_sighting p) eqn:Hs.
  - rewrite (sighting_is_no_hazard p Hs). simpl.
    by rewrite !Z.add_0_r.
  - destruct (is_hazard p); simpl.
    + split.
      * rewrite (bump_lookup _ k (dType p) _ (occurrences_nonneg _ _ _) Hd).
        by destruct (String.eqb (dType p) k).
      * rewrite (bump_lookup _ k (hStatus p) _ (occurrences_nonneg _ _ _) Hh).
        by destruct (String.eqb (hStatus p) k).
    + by rewrite !Z.add_0_r.
Qed.

(** *** Order *)

(** The danger counter and both histograms never depend on the order. *)
Lemma hazard_part_Permutation (pts pts' : list Point.t) :
  pts ≡ₚ pts' →
  danger (stats pts') = danger (stats pts)
  ∧ dangerTypes (stats pts') = dangerTypes (stats pts)
  ∧ healthStatus (stats pts') = healthStatus (stats pts).
Proof.
  intros Hperm. split; [|split].
  - rewrite !stats_danger. symmetry. by apply hazards_Permutation.
  - apply map_eq. intros k.
    rewrite (proj1 (stats_lookup pts' k)), (proj1 (stats_lookup pts k)).
    f_equal. symmetry. by apply occurrences_Permutation.
  - apply map_eq. intros k.
    rewrite (proj2 (stats_lookup pts' k)), (proj2 (stats_lookup pts k)).
    f_equal. symmetry. by apply occurrences_Permutation.
Qed.

(** C6, as stated, fails: sums are rounded to binary64, so a herd of 2^53
    adults followed by two single adults adds up to 2^53, while the two
    single adults followed by the herd add up to 2^53 + 2. *)
Lemma C6_order_matters_beyond_2_53 :
  [Scenario.herd (2 ^ 53); Scenario.herd 1; Scenario.herd 1]
  ≡ₚ [Scenario.herd 1; Scenario.herd 1; Scenario.herd (2 ^ 53)]
  ∧ stats [Scenario.herd 1; Scenario.herd 1; Scenario.herd (2 ^ 53)]
    ≠ stats [Scenario.herd (2 ^ 53); Scenario.herd 1; Scenario.herd 1].
Proof.
  split.
  - exact (Permutation_cons_append
             [Scenario.herd 1; Scenario.herd 1] (Scenario.herd (2 ^ 53))).
  - intros H. apply (f_equal adults) in H. vm_compute in H. discriminate.
Qed.

(** C6 (amended): when the adult and calf counts are integers whose
    magnitudes add up to less than 2^53, aggregation does not depend on the
    order of the sequence: a permutation of it folds to the same adults,
    calves, danger count and histograms. *)
Theorem C6_stats_order_independent (pts pts' : list Point.t) :
  pts ≡ₚ pts' → exact_range pts → stats pts' = stats pts.
Proof.
  intros Hperm Hrange.
  assert (exact_range pts') as Hrange'.
  { destruct Hrange as [Ha Hc]. split.
    - by rewrite <- (magnitude_Permutation Point.adults pts pts').
    - by rewrite <- (magnitude_Permutation Point.calves pts pts'). }
  destruct (stats_counters_exact pts Hrange) as [Ha Hc].
  destruct (stats_counters_exact pts' Hrange') as [Ha' Hc'].
  destruct (hazard_part_Permutation pts pts' Hperm) as (Hd & Ht & Hh).
  apply stats_eq; try done.
  - rewrite Ha, Ha'. symmetry. by apply sighted_Permutation.
  - rewrite Hc, Hc'. symmetry. by apply sighted_Permutation.
Qed.

Lemma C6_stats_order_independent_witness :
  Scenario.aggregate_input ≡ₚ rev Scenario.aggregate_input
  ∧ exact_range Scenario.aggregate_input
  ∧ stats (rev Scenario.aggregate_input) = stats Scenario.aggregate_input.
Proof.
  assert (exact_range Scenario.aggregate_input) as Hrange.
  { split; vm_compute; reflexivity. }
  split; [exact (Permutation_rev Scenario.aggregate_input)|].
  split; [exact Hrange|].
  exact (C6_stats_order_independent _ _
           (Permutation_rev Scenario.aggregate_input) Hrange).
Defined.

(** *** Histogram totals *)

Lemma histogram_total_empty : histogram_total ∅ = 0.
Proof. unfold histogram_total. apply map_fold_empty. Qed.

Lemma histogram_total_insert (obj : gmap string Cell) (k : string) (c : Cell) :
  histogram_total (<[k := c]> obj)
  = cell_count c + histogram_total obj - count_at obj k.
Proof.
  unfold histogram_total, count_at.
  destruct (obj !! k) as [c0|] eqn:Hk.
  - rewrite <- insert_delete_eq.
    rewrite map_fold_insert_L; [|intros; lia|apply lookup_delete_eq].
    rewrite (map_fold_delete_L _ _ k c0 obj); [|intros; lia|done].
    lia.
  - rewrite map_fold_insert_L; [lia|intros; lia|done].
Qed.

(** Under a label that is not an inherited name, and in a histogram that
    holds counts only, an increment adds one to the total. *)
Lemma histogram_total_bump (obj : gmap string Cell) (k : string) :
  inherited k = false →
  (∀ j c, obj !! j = Some c → ∃ n, c = Num n) →
  histogram_total (bump obj k) = histogram_total obj + 1
  ∧ (∀ j c, bump obj k !! j = Some c → ∃ n, c = Num n).
Proof.
  intros Hk Hnum. unfold bump. rewrite Hk.
  destruct (obj !! k) as [c0|] eqn:Hc0.
  - destruct (Hnum k c0 Hc0) as [n ->]. split.
    + rewrite histogram_total_insert. unfold count_at. rewrite Hc0. simpl.
      destruct (n =? 0) eqn:H0; [apply Z.eqb_eq in H0|]; lia.
    + intros j c. rewrite lookup_insert.
      destruct (decide (k = j)); [intros [= <-]; eauto|apply Hnum].
  - split.
    + rewrite histogram_total_insert. unfold count_at. rewrite Hc0. simpl.
      lia.
    + intros j c. rewrite lookup_insert.
      destruct (decide (k = j)); [intros [= <-]; eauto|apply Hnum].
Qed.

(** The invariant the reducer keeps on sequences whose hazard labels are
    not inherited names: the counts of each histogram sum to the danger
    counter. *)
Lemma histograms_sum_to_danger_plain (l : list Point.t) : ∀ acc,
  (∀ p, p ∈ l → is_hazard p = true →
        inherited (dType p) = false ∧ inherited (hStatus p) = false) →
  (∀ j c, dangerTypes acc !! j = Some c → ∃ n, c = Num n) →
  (∀ j c, healthStatus acc !! j = Some c → ∃ n, c = Num n) →
  histogram_total (dangerTypes acc) = danger acc →
  histogram_total (healthStatus acc) = danger acc →
  histogram_total (dangerTypes (fold_left stats_step l acc))
  = danger (fold_left stats_step l acc)
  ∧ histogram_total (healthStatus (fold_left stats_step l acc))
    = danger (fold_left stats_step l acc).
Proof.
  induction l as [|p l IH]; intros acc Hplain Hnd Hnh Hd Hh; [by split|].
  change (fold_left stats_step (p :: l) acc)
    with (fold_left stats_step l (stats_step acc p)).
  assert (∀ q, q ∈ l → is_hazard q = true →
               inherited (dType q) = false ∧ inherited (hStatus q) = false)
    as Hrest.
  { intros q Hq. apply Hplain. by constructor. }
  rewrite stats_step_cases.
  destruct (is_sighting p); [by apply IH|].
  destruct (is_hazard p) eqn:Hz; [|by apply IH].
  destruct (Hplain p) as [Hpd Hph]; [by constructor|done|].
  destruct (histogram_total_bump (dangerTypes acc) (dType p) Hpd Hnd)
    as [Htd Hnd'].
  destruct (histogram_total_bump (healthStatus acc) (hStatus p) Hph Hnh)
    as [Hth Hnh'].
  apply IH; simpl; auto; lia.
Qed.

(** C8, at the failing input: one hazard whose category and health status
    are the text [__proto__] raises the danger counter to 1 and leaves both
    histograms without any key, so that their counts sum to 0. *)
Theorem C8_proto_label_not_counted :
  danger (stats [Scenario.hazard_proto]) = 1
  ∧ dangerTypes (stats [Scenario.hazard_proto]) = ∅
  ∧ healthStatus (stats [Scenario.hazard_proto]) = ∅
  ∧ histogram_total (dangerTypes (stats [Scenario.hazard_proto])) = 0
  ∧ histogram_total (healthStatus (stats [Scenario.hazard_proto])) = 0.
Proof. repeat split. Qed.

Lemma or_str_blank (x : option string) (d : string) :
  or_str (blank_as_null x) d = or_str x d.
Proof.
  destruct x as [s|]; simpl; [|reflexivity].
  destruct (truthy_str s) eqn:Hs; simpl; [by rewrite Hs|reflexivity].
Qed.

Lemma stats_step_without_blanks (acc : Stats) (p : Point.t) :
  stats_step acc (without_blanks p) = stats_step acc p.
Proof.
  unfold stats_step, without_blanks. simpl. by rewrite !or_str_blank.
Qed.

Lemma stats_fold_without_blanks (l : list Point.t) : ∀ acc,
  fold_left stats_step (map without_blanks l) acc
  = fold_left stats_step l acc.
Proof.
  induction l as [|p l IH]; intros acc; simpl; [reflexivity|].
  by rewrite stats_step_without_blanks.
Qed.

(** C9, as stated, fails: a hazard whose category and health status are
    empty strings is not counted under the key "Unknown". *)
Lemma C9_blank_not_under_Unknown :
  stats [Scenario.hazard_blank]
  ≠ {| adults := 0; calves := 0; danger := 1;
       dangerTypes := {[ "Unknown" := Num 1 ]};
       healthStatus := {[ "Unknown" := Num 1 ]} |}.
Proof.
  intros H.
  apply (f_equal (λ s, dangerTypes s !! "Unknown")) in H.
  vm_compute in H. discriminate.
Qed.

(** C9 (amended): for every input sequence the aggregator counts a hazard
    whose category or health status is the empty string as it counts one
    where the field is absent, in the bucket "Desconocido". *)
Theorem C9_blank_counts_as_absent
    (pts : list Point.t) (acc : Stats) (id : string)
    (trip created other : option string) :
  stats (map without_blanks pts) = stats pts
  ∧ dangerTypes (stats_step acc (hazard_row id trip created (Some "") other))
    = bump (dangerTypes acc) "Desconocido"
  ∧ dangerTypes (stats_step acc (hazard_row id trip created None other))
    = bump (dangerTypes acc) "Desconocido"
  ∧ healthStatus (stats_step acc (hazard_row id trip created other (Some "")))
    = bump (healthStatus acc) "Desconocido"
  ∧ healthStatus (stats_step acc (hazard_row id trip created other None))
    = bump (healthStatus acc) "Desconocido".
Proof.
  split; [apply stats_fold_without_blanks|]. repeat split.
Qed.


(** * Further properties of the component *)

(** ** Pushes and the filtered sequence *)

(** X1: after any sequence of push events the point collection is the
    initial one followed by the pushed points in arrival order; nothing is
    dropped, reordered or merged, and trip events leave it alone. *)
Theorem X1_point_pushes_appended (s : Session) (es : list Push) :
  points (on_pushes s es) = points s ++ pushed_points es.
Proof. apply on_pushes_points. Qed.


Lemma filteredPoints_filter {lib : DateLib} (tripsNow : list Trip.t)
    (f : Filters) (l : list Point.t) :
  filteredPoints tripsNow f l
  = List.filter (kept_by tripsNow f canonical_order) l.
Proof. by rewrite filteredPoints_run, run_stages_filter. Qed.



Lemma userTripIds_cons (t : Trip.t) (tripsNow : list Trip.t) (user : string) :
  userTripIds (t :: tripsNow) user
  = if strict_eq (Trip.user_id t) user
    then Trip.id t :: userTripIds tripsNow user
    else userTripIds tripsNow user.
Proof.
  unfold userTripIds. simpl.
  by destruct (strict_eq (Trip.user_id t) user).
Qed.



(** X4: a pushed trip that is not owned by the selected user, or any pushed
    trip when no user is selected, leaves the filtered sequence as it is. *)
Theorem X4_foreign_trip_push_changes_nothing {lib : DateLib}
    (s : Session) (f : Filters) (new : Trip.t) :
  filterUser f = "all" ∨ strict_eq (Trip.user_id new) (filterUser f) = false →
  filteredPoints (trips (on_push s (InsertTrips new))) f
    (points (on_push s (InsertTrips new)))
  = filteredPoints (trips s) f (points s).
Proof.
  intros Hforeign. simpl. unfold filteredPoints. do 3 f_equal.
  unfold user_stage.
  destruct Hforeign as [-> | Hnot]; [reflexivity|].
  destruct (negb (String.eqb (filterUser f) "all")); [|reflexivity].
  apply filter_ext. intros p. unfold user_pred.
  by rewrite userTripIds_cons, Hnot.
Qed.

Lemma X4_foreign_trip_push_changes_nothing_witness :
  (filterUser Scenario.only_u1 = "all"
   ∨ strict_eq (Trip.user_id Scenario.trip_b) (filterUser Scenario.only_u1)
     = false)
  ∧ @filteredPoints (FixedOffset.lib 0)
      (trips (on_push (mkSession [Scenario.trip_a] [Scenario.sighting])
                      (InsertTrips Scenario.trip_b)))
      Scenario.only_u1
      (points (on_push (mkSession [Scenario.trip_a] [Scenario.sighting])
                       (InsertTrips Scenario.trip_b)))
    = @filteredPoints (FixedOffset.lib 0) [Scenario.trip_a] Scenario.only_u1
        [Scenario.sighting].
Proof.
  assert (filterUser Scenario.only_u1 = "all"
          ∨ strict_eq (Trip.user_id Scenario.trip_b)
              (filterUser Scenario.only_u1) = false) as Hforeign.
  { right. reflexivity. }
  split; [exact Hforeign|].
  exact (@X4_foreign_trip_push_changes_nothing (FixedOffset.lib 0)
           (mkSession [Scenario.trip_a] [Scenario.sighting])
           Scenario.only_u1 Scenario.trip_b Hforeign).
Defined.

(** ** How the stages compose *)

(** X5: filtering is idempotent: the pipeline applied to its own result
    returns that result. *)
Theorem X5_filteredPoints_idempotent {lib : DateLib}
    (tripsNow : list Trip.t) (f : Filters) (pts : list Point.t) :
  filteredPoints tripsNow f (filteredPoints tripsNow f pts)
  = filteredPoints tripsNow f pts.
Proof.
  rewrite !filteredPoints_filter, array_filter_twice.
  apply filter_ext. intros p. apply andb_diag.
Qed.

(** X6: the date stage with both bounds is the stage with the start bound
    alone applied after the stage with the end bound alone; this also holds
    when a bound is unset. *)
Theorem X6_date_stage_splits {lib : DateLib}
    (user start finish trip : string) (active : gmap string bool)
    (pts : list Point.t) :
  date_stage (mkFilters user start finish trip active) pts
  = date_stage (mkFilters user start "" trip active)
      (date_stage (mkFilters user "" finish trip active) pts).
Proof.
  unfold date_stage, date_pred. simpl.
  destruct (truthy_str start), (truthy_str finish); simpl; try reflexivity.
  by rewrite array_filter_twice, (filter_ext _ _ (λ p, andb_comm _ _)).
Qed.

Lemma filteredTrips_ids (tripsNow : list Trip.t) (f : Filters) :
  filterUser f ≠ "all" →
  map Trip.id (filteredTrips tripsNow f) = userTripIds tripsNow (filterUser f).
Proof.
  intros Huser. unfold filteredTrips, userTripIds.
  by destruct (String.eqb_spec (filterUser f) "all").
Qed.

Lemma includes_In (ids : list string) (v : string) :
  includes ids (Some v) = true ↔ In v ids.
Proof.
  unfold includes. rewrite existsb_exists. split.
  - intros (id & Hid & Heq). apply String.eqb_eq in Heq. by subst.
  - intros Hv. exists v. split; [done|apply String.eqb_refl].
Qed.

Lemma array_filter_none {A : Type} (keep : A → bool) (l : list A) :
  (∀ x, keep x = false) → List.filter keep l = [].
Proof.
  intros Hnone. induction l as [|x l IH]; simpl; [reflexivity|].
  by rewrite Hnone.
Qed.



(** X8: when a user is selected and the selected trip is a trip of nobody
    or of somebody else, the filtered sequence is empty. *)
Theorem X8_foreign_trip_selects_nothing {lib : DateLib}
    (tripsNow : list Trip.t) (f : Filters) (pts : list Point.t) :
  filterUser f ≠ "all" →
  filterTrip f ≠ "all" →
  ¬ In (filterTrip f) (userTripIds tripsNow (filterUser f)) →
  filteredPoints tripsNow f pts = [].
Proof.
  intros Huser Htrip Hforeign.
  rewrite filteredPoints_filter. apply array_filter_none. intros p.
  destruct (kept_by tripsNow f canonical_order p) eqn:Hkept; [|reflexivity].
  exfalso. unfold kept_by, canonical_order, forallb in Hkept.
  apply andb_true_iff in Hkept as [Hu Hkept].
  apply andb_true_iff in Hkept as [_ Hkept].
  apply andb_true_iff in Hkept as [Ht _].
  simpl in Hu, Ht.
  destruct (String.eqb_spec (filterTrip f) "all"); [done|].
  destruct (String.eqb_spec (filterUser f) "all"); [done|].
  simpl in Hu, Ht. unfold trip_pred in Ht. apply strict_eq_true in Ht.
  unfold user_pred in Hu. rewrite Ht in Hu.
  by apply includes_In in Hu.
Qed.

Lemma X8_foreign_trip_selects_nothing_witness :
  filterUser (mkFilters "u1" "" "" "t2" activeLayers_init) ≠ "all"
  ∧ filterTrip (mkFilters "u1" "" "" "t2" activeLayers_init) ≠ "all"
  ∧ ¬ In (filterTrip (mkFilters "u1" "" "" "t2" activeLayers_init))
        (userTripIds [Scenario.trip_a; Scenario.trip_b]
           (filterUser (mkFilters "u1" "" "" "t2" activeLayers_init)))
  ∧ @filteredPoints (FixedOffset.lib 0) [Scenario.trip_a; Scenario.trip_b]
      (mkFilters "u1" "" "" "t2" activeLayers_init)
      [Scenario.sighting; Scenario.dangling]
    = [].
Proof.
  assert (filterUser (mkFilters "u1" "" "" "t2" activeLayers_init) ≠ "all")
    as Huser by (simpl; discriminate).
  assert (filterTrip (mkFilters "u1" "" "" "t2" activeLayers_init) ≠ "all")
    as Htrip by (simpl; discriminate).
  assert (¬ In (filterTrip (mkFilters "u1" "" "" "t2" activeLayers_init))
            (userTripIds [Scenario.trip_a; Scenario.trip_b]
               (filterUser (mkFilters "u1" "" "" "t2" activeLayers_init))))
    as Hforeign.
  { vm_compute. intros [H|[]]. discriminate. }
  split; [exact Huser|]. split; [exact Htrip|]. split; [exact Hforeign|].
  exact (@X8_foreign_trip_selects_nothing (FixedOffset.lib 0)
           [Scenario.trip_a; Scenario.trip_b]
           (mkFilters "u1" "" "" "t2" activeLayers_init)
           [Scenario.sighting; Scenario.dangling] Huser Htrip Hforeign).
Defined.

(** ** What the reducer computes *)

(** X9: when the adult and calf counts are integers whose magnitudes add
    up to less than 2^53, [adults] and [calves] are the sums of the two
    count columns over the sightings (a missing count being 0); [danger] is
    the number of hazards; the columns of other points are not read. *)
Theorem X9_counters_characterised (pts : list Point.t) :
  exact_range pts →
  adults (stats pts) = sighted Point.adults pts
  ∧ calves (stats pts) = sighted Point.calves pts
  ∧ danger (stats pts) = Z.of_nat (length (List.filter is_hazard pts)).
Proof.
  intros Hrange. destruct (stats_counters_exact pts Hrange) as [Ha Hc].
  split; [exact Ha|]. split; [exact Hc|apply stats_danger].
Qed.

Lemma X9_counters_characterised_witness :
  exact_range Scenario.aggregate_input
  ∧ adults (stats Scenario.aggregate_input)
    = sighted Point.adults Scenario.aggregate_input.
Proof.
  assert (exact_range Scenario.aggregate_input) as Hrange.
  { split; vm_compute; reflexivity. }
  split; [exact Hrange|].
  exact (proj1 (X9_counters_characterised Scenario.aggregate_input Hrange)).
Defined.

(** X10: under every key each histogram holds what the number of hazards
    carrying that label (after defaulting) determines: no key when there is
    none; that number under a label found nowhere on [Object.prototype];
    under an inherited name, nothing for [__proto__] and otherwise the text
    of the member followed by as many [1] as there are such hazards. *)
Theorem X10_histograms_characterised (pts : list Point.t) (k : string) :
  dangerTypes (stats pts) !! k = cell_of k (occurrences dType k pts)
  ∧ healthStatus (stats pts) !! k = cell_of k (occurrences hStatus k pts).
Proof. apply stats_lookup. Qed.

Lemma count_at_cell_of (h : gmap string Cell) (k : string) (n : Z) :
  h !! k = cell_of k n →
  count_at h k = if inherited k then 0 else n.
Proof.
  intros Hk. unfold count_at. rewrite Hk. unfold cell_of.
  destruct (Z.eqb_spec n 0) as [->|_]; [by destruct (inherited k)|].
  destruct (inherited k); [|reflexivity].
  by destruct (String.eqb k "__proto__").
Qed.

Lemma exact_range_app (l1 l2 : list Point.t) :
  exact_range (l1 ++ l2) → exact_range l1 ∧ exact_range l2.
Proof.
  unfold exact_range. rewrite !magnitude_app.
  pose proof (magnitude_nonneg Point.adults l1).
  pose proof (magnitude_nonneg Point.adults l2).
  pose proof (magnitude_nonneg Point.calves l1).
  pose proof (magnitude_nonneg Point.calves l2).
  intros [? ?]. repeat split; lia.
Qed.

(** X11: when the adult and calf counts of a concatenation are integers
    whose magnitudes add up to less than 2^53, its counters are the sums of
    the counters of its parts; the danger counter and the count held under
    every label of both histograms (0 when none is held) add up likewise. *)
Theorem X11_stats_additive (l1 l2 : list Point.t) (k : string) :
  exact_range (l1 ++ l2) →
  adults (stats (l1 ++ l2)) = adults (stats l1) + adults (stats l2)
  ∧ calves (stats (l1 ++ l2)) = calves (stats l1) + calves (stats l2)
  ∧ danger (stats (l1 ++ l2)) = danger (stats l1) + danger (stats l2)
  ∧ count_at (dangerTypes (stats (l1 ++ l2))) k
    = count_at (dangerTypes (stats l1)) k + count_at (dangerTypes (stats l2)) k
  ∧ count_at (healthStatus (stats (l1 ++ l2))) k
    = count_at (healthStatus (stats l1)) k
      + count_at (healthStatus (stats l2)) k.
Proof.
  intros Hrange. destruct (exact_range_app l1 l2 Hrange) as [Hr1 Hr2].
  destruct (stats_counters_exact (l1 ++ l2) Hrange) as [-> ->].
  destruct (stats_counters_exact l1 Hr1) as [-> ->].
  destruct (stats_counters_exact l2 Hr2) as [-> ->].
  rewrite !stats_danger, !sighted_app, List.filter_app, length_app.
  rewrite (count_at_cell_of _ _ _ (proj1 (stats_lookup (l1 ++ l2) k))).
  rewrite (count_at_cell_of _ _ _ (proj1 (stats_lookup l1 k))).
  rewrite (count_at_cell_of _ _ _ (proj1 (stats_lookup l2 k))).
  rewrite (count_at_cell_of _ _ _ (proj2 (stats_lookup (l1 ++ l2) k))).
  rewrite (count_at_cell_of _ _ _ (proj2 (stats_lookup l1 k))).
  rewrite (count_at_cell_of _ _ _ (proj2 (stats_lookup l2 k))).
  rewrite !occurrences_app.
  destruct (inherited k); repeat split; lia.
Qed.

Lemma X11_stats_additive_witness :
  exact_range ([Scenario.sighting] ++ [Scenario.hazard_injured;
                                       Scenario.hazard_plain])
  ∧ adults (stats ([Scenario.sighting] ++ [Scenario.hazard_injured;
                                           Scenario.hazard_plain]))
    = adults (stats [Scenario.sighting])
      + adults (stats [Scenario.hazard_injured; Scenario.hazard_plain]).
Proof.
  assert (exact_range ([Scenario.sighting] ++ [Scenario.hazard_injured;
                                               Scenario.hazard_plain]))
    as Hrange.
  { split; vm_compute; reflexivity. }
  split; [exact Hrange|].
  exact (proj1 (X11_stats_additive [Scenario.sighting]
                  [Scenario.hazard_injured; Scenario.hazard_plain]
                  "net" Hrange)).
Defined.

Lemma array_filter_none_in {A : Type} (keep : A → bool) (l : list A) :
  (∀ x, x ∈ l → keep x = false) → List.filter keep l = [].
Proof.
  intros Hnone. induction l as [|x l IH]; simpl; [reflexivity|].
  rewrite (Hnone x) by constructor.
  apply IH. intros y Hy. apply Hnone. by constructor.
Qed.

Lemma array_filter_nil_inv {A : Type} (keep : A → bool) (l : list A) (x : A) :
  List.filter keep l = [] → x ∈ l → keep x = false.
Proof.
  intros Hnil Hx. destruct (keep x) eqn:Hk; [|reflexivity].
  assert (x ∈ List.filter keep l) as Hin by by apply array_filter_elem.
  rewrite Hnil in Hin. by apply not_elem_of_nil in Hin.
Qed.

Lemma no_hazard_no_occurrence (label : Point.t → string) (k : string)
    (l : list Point.t) :
  List.filter is_hazard l = [] → occurrences label k l = 0.
Proof.
  intros Hnil. unfold occurrences.
  rewrite array_filter_none_in; [reflexivity|].
  intros p Hp. by rewrite (array_filter_nil_inv _ _ p Hnil Hp).
Qed.

(** Without hazards both histograms are empty. *)
Lemma no_hazard_no_key (l : list Point.t) :
  List.filter is_hazard l = [] →
  dangerTypes (stats l) = ∅ ∧ healthStatus (stats l) = ∅.
Proof.
  intros Hnil. split; apply map_empty; intros k.
  - rewrite (proj1 (stats_lookup l k)).
    by rewrite (no_hazard_no_occurrence dType k l Hnil).
  - rewrite (proj2 (stats_lookup l k)).
    by rewrite (no_hazard_no_occurrence hStatus k l Hnil).
Qed.

(** A hazard whose label is not [__proto__] leaves a key. *)
Lemma hazard_leaves_key (label : Point.t → string) (h : gmap string Cell)
    (l : list Point.t) (p : Point.t) :
  (∀ k, h !! k = cell_of k (occurrences label k l)) →
  p ∈ l → is_hazard p = true → String.eqb (label p) "__proto__" = false →
  h ≠ ∅.
Proof.
  intros Hh Hp Hz Hproto Hempty.
  assert (h !! label p = None) as Hnone by (by rewrite Hempty, lookup_empty).
  rewrite Hh in Hnone. unfold cell_of in Hnone. rewrite Hproto in Hnone.
  destruct (Z.eqb_spec (occurrences label (label p) l) 0) as [H0|_];
    [|by destruct (inherited (label p))].
  unfold occurrences in H0.
  assert (List.filter (λ q, is_hazard q && String.eqb (label q) (label p)) l
          = []) as Hnil.
  { destruct (List.filter _ l); [reflexivity|simpl in H0; lia]. }
  pose proof (array_filter_nil_inv _ _ p Hnil Hp) as Hfalse.
  simpl in Hfalse. by rewrite Hz, String.eqb_refl in Hfalse.
Qed.

Lemma proto_labelled_false (l : list Point.t) (p : Point.t) :
  proto_labelled l = false → p ∈ l → is_hazard p = true →
  String.eqb (dType p) "__proto__" = false
  ∧ String.eqb (hStatus p) "__proto__" = false.
Proof.
  intros Hnone Hp Hz. unfold proto_labelled in Hnone.
  destruct (String.eqb (dType p) "__proto__"
            || String.eqb (hStatus p) "__proto__") eqn:Hor.
  - assert (existsb (λ q, is_hazard q
                          && (String.eqb (dType q) "__proto__"
                              || String.eqb (hStatus q) "__proto__")) l
            = true) as Hex.
    { apply existsb_exists. exists p. split; [by apply list_elem_of_In|].
      by rewrite Hz, Hor. }
    congruence.
  - by apply orb_false_iff in Hor.
Qed.

(** X12: when no hazard of the sequence is labelled [__proto__], the pie
    is drawn exactly when the danger counter is positive, whichever
    histogram is selected; otherwise the notice is shown. *)
Theorem X12_chart_shown_iff_danger (chartType : string) (pts : list Point.t) :
  proto_labelled pts = false →
  chart_shown chartType (stats pts) = true ↔ 0 < danger (stats pts).
Proof.
  intros Hplain. rewrite stats_danger.
  unfold chart_shown. rewrite Nat.ltb_lt.
  assert (∀ h : gmap string Cell,
            (h = ∅ ↔ List.filter is_hazard pts = []) →
            (0 < size h)%nat ↔ 0 < Z.of_nat (length (List.filter is_hazard pts)))
    as Hsize.
  { intros h Hiff. destruct (decide (h = ∅)) as [He|Hne].
    - rewrite (proj1 Hiff He). subst h. rewrite map_size_empty. simpl. lia.
    - assert (size h ≠ 0%nat) by by rewrite map_size_empty_iff.
      assert (List.filter is_hazard pts ≠ []) as Hl by by rewrite <- Hiff.
      destruct (List.filter is_hazard pts); [done|]. simpl. lia. }
  assert (∀ (label : Point.t → string) (h : gmap string Cell),
            (∀ k, h !! k = cell_of k (occurrences label k pts)) →
            (∀ p, p ∈ pts → is_hazard p = true →
                  String.eqb (label p) "__proto__" = false) →
            h = ∅ ↔ List.filter is_hazard pts = []) as Hempty.
  { intros label h Hh Hlabel. split.
    - intros He. apply array_filter_none_in. intros p Hp.
      destruct (is_hazard p) eqn:Hz; [|reflexivity]. exfalso.
      by apply (hazard_leaves_key label h pts p Hh Hp Hz (Hlabel p Hp Hz)).
    - intros Hnil. apply map_empty. intros k.
      by rewrite Hh, (no_hazard_no_occurrence label k pts Hnil). }
  unfold dataSource. destruct (String.eqb chartType "danger");
    apply Hsize.
  - apply (Hempty dType); [intros k; apply stats_lookup|].
    intros p Hp Hz. by apply (proto_labelled_false pts p).
  - apply (Hempty hStatus); [intros k; apply stats_lookup|].
    intros p Hp Hz. by apply (proto_labelled_false pts p).
Qed.

Lemma X12_chart_shown_iff_danger_witness :
  proto_labelled Scenario.aggregate_input = false
  ∧ (chart_shown "danger" (stats Scenario.aggregate_input) = true
     ↔ 0 < danger (stats Scenario.aggregate_input)).
Proof.
  split; [reflexivity|].
  exact (X12_chart_shown_iff_danger "danger" Scenario.aggregate_input
           eq_refl).
Defined.

Lemma stats_step_marker (acc : Stats) (p : Point.t) :
  is_sighting p || is_hazard p = false → stats_step acc p = acc.
Proof.
  intros [Hs Hz]%orb_false_iff. unfold stats_step.
  fold (is_sighting p). fold (is_hazard p). by rewrite Hs, Hz.
Qed.

Lemma stats_fold_markers (l : list Point.t) : ∀ acc,
  fold_left stats_step
    (List.filter (λ p, is_sighting p || is_hazard p) l) acc
  = fold_left stats_step l acc.
Proof.
  induction l as [|p l IH]; intros acc; simpl; [reflexivity|].
  destruct (is_sighting p || is_hazard p) eqn:Hp; simpl.
  - apply IH.
  - rewrite IH. by rewrite stats_step_marker.
Qed.

(** X13: points that are neither sightings nor hazards (trip start and end
    markers, points with no type or an unknown one) do not affect any
    statistic: removing them from the sequence leaves the result as it is. *)
Theorem X13_markers_do_not_count (pts : list Point.t) :
  stats (List.filter (λ p, is_sighting p || is_hazard p) pts) = stats pts.
Proof. apply stats_fold_markers. Qed.

Lemma layer_hides {lib : DateLib} (tripsNow : list Trip.t) (f : Filters)
    (pts : list Point.t) (name : string) (p : Point.t) :
  truthy_at (activeLayers f) name = false →
  p ∈ filteredPoints tripsNow f pts →
  strict_eq (Point.type p) name = false.
Proof.
  intros Hoff [_ Hkept]%filteredPoints_elem.
  destruct (strict_eq (Point.type p) name) eqn:Hname; [|reflexivity].
  apply strict_eq_true in Hname.
  unfold kept_by, canonical_order, forallb in Hkept.
  rewrite !andb_true_iff in Hkept. destruct Hkept as (_ & _ & _ & Hlayer & _).
  simpl in Hlayer. unfold layer_pred in Hlayer.
  rewrite Hname in Hlayer. simpl in Hlayer. congruence.
Qed.

(** X14: while the hazard layer is switched off, the statistics of the
    filtered sequence show no hazard: the danger counter is 0 and both
    histograms are empty. *)
Theorem X14_hidden_hazards_not_counted {lib : DateLib}
    (tripsNow : list Trip.t) (f : Filters) (pts : list Point.t) :
  truthy_at (activeLayers f) "Peligro" = false →
  danger (stats (filteredPoints tripsNow f pts)) = 0
  ∧ dangerTypes (stats (filteredPoints tripsNow f pts)) = ∅
  ∧ healthStatus (stats (filteredPoints tripsNow f pts)) = ∅.
Proof.
  intros Hoff.
  assert (List.filter is_hazard (filteredPoints tripsNow f pts) = []) as Hnil.
  { apply array_filter_none_in. intros p Hp.
    by apply (layer_hides tripsNow f pts). }
  rewrite stats_danger, Hnil. split; [reflexivity|].
  by apply no_hazard_no_key.
Qed.

Lemma X14_hidden_hazards_not_counted_witness :
  truthy_at (activeLayers (mkFilters "all" "" "" "all"
                             (toggleLayer "Peligro" activeLayers_init)))
            "Peligro" = false
  ∧ danger (stats (@filteredPoints (FixedOffset.lib 0) []
                     (mkFilters "all" "" "" "all"
                        (toggleLayer "Peligro" activeLayers_init))
                     Scenario.aggregate_input)) = 0.
Proof.
  assert (truthy_at (activeLayers (mkFilters "all" "" "" "all"
                                     (toggleLayer "Peligro" activeLayers_init)))
                    "Peligro" = false) as Hoff by (vm_compute; reflexivity).
  split; [exact Hoff|].
  exact (proj1 (@X14_hidden_hazards_not_counted (FixedOffset.lib 0) []
                  (mkFilters "all" "" "" "all"
                     (toggleLayer "Peligro" activeLayers_init))
                  Scenario.aggregate_input Hoff)).
Defined.

(** X15: while the sighting layer is switched off, the adult and calf
    counters of the filtered sequence are 0. *)
Theorem X15_hidden_sightings_not_counted {lib : DateLib}
    (tripsNow : list Trip.t) (f : Filters) (pts : list Point.t) :
  truthy_at (activeLayers f) "Avistamiento" = false →
  adults (stats (filteredPoints tripsNow f pts)) = 0
  ∧ calves (stats (filteredPoints tripsNow f pts)) = 0.
Proof.
  intros Hoff.
  assert (List.filter is_sighting (filteredPoints tripsNow f pts) = [])
    as Hnil.
  { apply array_filter_none_in. intros p Hp.
    by apply (layer_hides tripsNow f pts). }
  assert (∀ field, magnitude field (filteredPoints tripsNow f pts) = 0)
    as Hzero by (intros field; unfold magnitude; by rewrite Hnil).
  destruct (stats_counters_exact (filteredPoints tripsNow f pts)) as [-> ->].
  { split; rewrite Hzero; lia. }
  unfold sighted. by rewrite Hnil.
Qed.

Lemma X15_hidden_sightings_not_counted_witness :
  truthy_at (activeLayers (mkFilters "all" "" "" "all"
                             (toggleLayer "Avistamiento" activeLayers_init)))
            "Avistamiento" = false
  ∧ adults (stats (@filteredPoints (FixedOffset.lib 0) []
                     (mkFilters "all" "" "" "all"
                        (toggleLayer "Avistamiento" activeLayers_init))
                     Scenario.aggregate_input)) = 0.
Proof.
  assert (truthy_at (activeLayers (mkFilters "all" "" "" "all"
                                     (toggleLayer "Avistamiento"
                                        activeLayers_init)))
                    "Avistamiento" = false) as Hoff
    by (vm_compute; reflexivity).
  split; [exact Hoff|].
  exact (proj1 (@X15_hidden_sightings_not_counted (FixedOffset.lib 0) []
                  (mkFilters "all" "" "" "all"
                     (toggleLayer "Avistamiento" activeLayers_init))
                  Scenario.aggregate_input Hoff)).
Defined.

(** ** Marker colours *)

Lemma marker_color_cases (type : option string) :
  inherited (to_key type) = false →
  marker_color type = Some "#43e97b" ∨ marker_color type = Some "#F44336"
  ∨ marker_color type = Some "#4facfe" ∨ marker_color type = Some "#fd79a8"
  ∨ marker_color type = Some "#888".
Proof.
  unfold marker_color, colors. generalize (to_key type). intros k Hk.
  destruct (decide ("Inicio" = k)) as [<-|?]; [by left|].
  rewrite lookup_insert_ne by done.
  destruct (decide ("Fin" = k)) as [<-|?]; [by right; left|].
  rewrite lookup_insert_ne by done.
  destruct (decide ("Avistamiento" = k)) as [<-|?]; [by right; right; left|].
  rewrite lookup_insert_ne by done.
  destruct (decide ("Peligro" = k)) as [<-|?]; [by right; right; right; left|].
  rewrite lookup_insert_ne by done.
  rewrite lookup_empty, Hk. by right; right; right; right.
Qed.

(** X16: for every type that is not the name of a member inherited from
    [Object.prototype] (in particular for the four layers), the marker has
    a colour, the pattern the layer menu applies to the icon's markup does
    match, and the colour it extracts is the colour of the marker; so
    reading group 1 of the match does not fail. *)
Theorem X16_dot_color_is_marker_color (type : option string) :
  inherited (to_key type) = false →
  ∃ color, marker_color type = Some color
           ∧ match_color (icon_html color) = Some color.
Proof.
  intros Hplain.
  destruct (marker_color_cases type Hplain) as [-> | [-> | [-> | [-> | ->]]]];
    eexists; (split; [reflexivity|]); vm_compute; reflexivity.
Qed.

Lemma X16_dot_color_is_marker_color_witness :
  inherited (to_key (Some "Peligro")) = false
  ∧ ∃ color, marker_color (Some "Peligro") = Some color
             ∧ match_color (icon_html color) = Some color.
Proof.
  split; [reflexivity|].
  exact (X16_dot_color_is_marker_color (Some "Peligro") eq_refl).
Defined.

(** ** Reachable states of the component *)

Lemma run_invariant (P : App → Prop) (allowed : Action → bool) :
  (∀ a act, P a → allowed act = true → offered a act = true →
            P (handle a act)) →
  ∀ acts a a',
    forallb allowed acts = true → P a → run a acts = Some a' → P a'.
Proof.
  intros Hstep. induction acts as [|act acts IH]; intros a a' Hall HP Hrun.
  - simpl in Hrun. by simplify_eq.
  - simpl in Hall, Hrun. apply andb_true_iff in Hall as [Hact Hall].
    destruct (offered a act) eqn:Hoff; [|discriminate].
    apply (IH (handle a act) a'); [exact Hall| |exact Hrun].
    by apply Hstep.
Qed.

Lemma forallb_any (acts : list Action) : forallb (λ _, true) acts = true.
Proof. by induction acts. Qed.

Lemma menus_exclusive_step (a : App) (act : Action) :
  layers (showControls a) && maps (showControls a) = false →
  layers (showControls (handle a act)) && maps (showControls (handle a act))
  = false.
Proof.
  intros H. destruct act; simpl; try exact H.
  - apply andb_false_r.
  - reflexivity.
Qed.

(** X17: the layer menu and the map menu are never open together, whatever
    the user clicks and whatever arrives. *)
Theorem X17_menus_never_both_open (acts : list Action) (a : App) :
  run app_init acts = Some a →
  layers (showControls a) && maps (showControls a) = false.
Proof.
  intros Hrun.
  apply (run_invariant
           (λ a, layers (showControls a) && maps (showControls a) = false)
           (λ _, true)) with (acts := acts) (a := app_init);
    auto using forallb_any.
  intros a0 act H _ _. by apply menus_exclusive_step.
Qed.

Lemma X17_menus_never_both_open_witness :
  run app_init [ClickLayers; ClickMaps; ClickBaseMap "satellite"]
  = Some (handle (handle (handle app_init ClickLayers) ClickMaps)
                 (ClickBaseMap "satellite"))
  ∧ layers (showControls
              (handle (handle (handle app_init ClickLayers) ClickMaps)
                      (ClickBaseMap "satellite")))
    && maps (showControls
               (handle (handle (handle app_init ClickLayers) ClickMaps)
                       (ClickBaseMap "satellite")))
    = false.
Proof.
  assert (run app_init [ClickLayers; ClickMaps; ClickBaseMap "satellite"]
          = Some (handle (handle (handle app_init ClickLayers) ClickMaps)
                         (ClickBaseMap "satellite"))) as Hrun
    by reflexivity.
  split; [exact Hrun|].
  exact (X17_menus_never_both_open _ _ Hrun).
Defined.

Lemma trip_needs_user_step (a : App) (act : Action) :
  (filterUser (filters a) = "all" → filterTrip (filters a) = "all") →
  offered a act = true →
  filterUser (filters (handle a act)) = "all" →
  filterTrip (filters (handle a act)) = "all".
Proof.
  intros H Hoff. destruct act; simpl; try exact H; [done|].
  simpl in Hoff. apply andb_true_iff in Hoff as [Huser _].
  intros Hall. rewrite Hall in Huser. discriminate.
Qed.

(** X18: a trip can only be selected under a selected user: in every
    reachable state where no user is selected no trip is selected either,
    so the filtered sequence is what the date and layer stages give. *)
Theorem X18_no_user_no_trip {lib : DateLib} (acts : list Action) (a : App) :
  run app_init acts = Some a →
  filterUser (filters a) = "all" →
  filterTrip (filters a) = "all"
  ∧ filteredPoints (trips (session a)) (filters a) (points (session a))
    = layer_stage (filters a) (date_stage (filters a) (points (session a))).
Proof.
  intros Hrun Hall.
  assert (filterTrip (filters a) = "all") as Htrip.
  { revert Hall.
    apply (run_invariant
             (λ a, filterUser (filters a) = "all" →
                   filterTrip (filters a) = "all")
             (λ _, true)) with (acts := acts) (a := app_init);
      auto using forallb_any.
    intros a0 act H _ Hoff. by apply trip_needs_user_step. }
  split; [exact Htrip|].
  unfold filteredPoints, trip_stage, user_stage. by rewrite Htrip, Hall.
Qed.

Lemma X18_no_user_no_trip_witness :
  run app_init [SetProfiles (Some [Profile.mk "u1" None]);
                ChangeUser "u1"; ChangeTrip "all"; ChangeUser "all"]
  = Some (handle (handle (handle (handle app_init
            (SetProfiles (Some [Profile.mk "u1" None])))
            (ChangeUser "u1")) (ChangeTrip "all")) (ChangeUser "all"))
  ∧ filterTrip (filters (handle (handle (handle (handle app_init
            (SetProfiles (Some [Profile.mk "u1" None])))
            (ChangeUser "u1")) (ChangeTrip "all")) (ChangeUser "all")))
    = "all".
Proof.
  assert (run app_init [SetProfiles (Some [Profile.mk "u1" None]);
                        ChangeUser "u1"; ChangeTrip "all"; ChangeUser "all"]
          = Some (handle (handle (handle (handle app_init
                    (SetProfiles (Some [Profile.mk "u1" None])))
                    (ChangeUser "u1")) (ChangeTrip "all")) (ChangeUser "all")))
    as Hrun by reflexivity.
  split; [exact Hrun|].
  exact (proj1 (@X18_no_user_no_trip (FixedOffset.lib 0) _ _ Hrun eq_refl)).
Defined.

Lemma activeLayers_init_keys (k : string) :
  is_Some (activeLayers_init !! k) ↔ In k layer_names.
Proof.
  unfold activeLayers_init, layer_names.
  rewrite !lookup_insert_is_Some, lookup_empty, is_Some_alt. simpl.
  split.
  - intros [?|[? [?|[? [?|[? [?|[? []]]]]]]]]; auto.
  - intros [?|[?|[?|[?|[]]]]].
    + by left.
    + destruct (decide ("Inicio" = k)); [by left|right]. split; [done|].
      by left.
    + destruct (decide ("Inicio" = k)); [by left|right]. split; [done|].
      destruct (decide ("Fin" = k)); [by left|right]. split; [done|].
      by left.
    + destruct (decide ("Inicio" = k)); [by left|right]. split; [done|].
      destruct (decide ("Fin" = k)); [by left|right]. split; [done|].
      destruct (decide ("Avistamiento" = k)); [by left|right]. split; [done|].
      by left.
Qed.

Lemma layer_keys_step (a : App) (act : Action) :
  (∀ k, is_Some (activeLayers (filters a) !! k) ↔ In k layer_names) →
  offered a act = true →
  ∀ k, is_Some (activeLayers (filters (handle a act)) !! k)
       ↔ In k layer_names.
Proof.
  intros H Hoff k. destruct act; try apply H.
  simpl in Hoff. apply andb_true_iff in Hoff as [_ Hkey].
  change (is_Some (toggleLayer type (activeLayers (filters a)) !! k)
          ↔ In k layer_names).
  unfold toggleLayer. rewrite lookup_insert_is_Some, <- H.
  destruct (activeLayers (filters a) !! type) eqn:Htype; [|discriminate].
  split.
  - intros [<-|[_ ?]]; [|done]. by rewrite Htype.
  - intros Hk. destruct (decide (type = k)); [by left|by right].
Qed.

(** X19: the layer menu toggles existing layers only, so the own keys of
    [activeLayers] stay the initial four; hence a point whose type is
    missing, or is neither one of the four nor the name of a member
    inherited from [Object.prototype], is never part of the filtered
    sequence. *)
Theorem X19_unknown_types_never_shown {lib : DateLib}
    (acts : list Action) (a : App) (p : Point.t) (pts : list Point.t) :
  run app_init acts = Some a →
  ¬ In (to_key (Point.type p)) layer_names →
  inherited (to_key (Point.type p)) = false →
  (∀ k, is_Some (activeLayers (filters a) !! k) ↔ In k layer_names)
  ∧ p ∉ filteredPoints (trips (session a)) (filters a) pts.
Proof.
  intros Hrun Hunknown Hplain.
  assert (∀ k, is_Some (activeLayers (filters a) !! k) ↔ In k layer_names)
    as Hkeys.
  { apply (run_invariant
             (λ a, ∀ k, is_Some (activeLayers (filters a) !! k)
                        ↔ In k layer_names)
             (λ _, true)) with (acts := acts) (a := app_init);
      auto using forallb_any.
    - intros a0 act H _ Hoff. by apply layer_keys_step.
    - apply activeLayers_init_keys. }
  split; [exact Hkeys|].
  rewrite filteredPoints_elem. intros [_ Hkept].
  unfold kept_by, canonical_order, forallb in Hkept.
  rewrite !andb_true_iff in Hkept. destruct Hkept as (_ & _ & _ & Hlayer & _).
  simpl in Hlayer. unfold layer_pred, truthy_at in Hlayer.
  destruct (activeLayers (filters a) !! to_key (Point.type p)) eqn:Hk;
    [|congruence].
  apply Hunknown, Hkeys. by rewrite Hk.
Qed.

Lemma X19_unknown_types_never_shown_witness :
  run app_init [ClickLayers; ClickLayer "Fin"]
  = Some (handle (handle app_init ClickLayers) (ClickLayer "Fin"))
  ∧ ¬ In (to_key (Point.type
                    (Point.mk "p9" None None None None None None None)))
         layer_names
  ∧ inherited (to_key (Point.type
                         (Point.mk "p9" None None None None None None None)))
    = false
  ∧ Point.mk "p9" None None None None None None None
    ∉ @filteredPoints (FixedOffset.lib 0)
        (trips (session (handle (handle app_init ClickLayers)
                                (ClickLayer "Fin"))))
        (filters (handle (handle app_init ClickLayers) (ClickLayer "Fin")))
        [Point.mk "p9" None None None None None None None].
Proof.
  assert (run app_init [ClickLayers; ClickLayer "Fin"]
          = Some (handle (handle app_init ClickLayers) (ClickLayer "Fin")))
    as Hrun by (vm_compute; reflexivity).
  assert (¬ In (to_key (Point.type
                          (Point.mk "p9" None None None None None None None)))
               layer_names) as Hunknown.
  { simpl. intros [H|[H|[H|[H|[]]]]]; discriminate. }
  split; [exact Hrun|]. split; [exact Hunknown|]. split; [reflexivity|].
  exact (proj2 (@X19_unknown_types_never_shown (FixedOffset.lib 0) _ _
                  (Point.mk "p9" None None None None None None None)
                  [Point.mk "p9" None None None None None None None]
                  Hrun Hunknown eq_refl)).
Defined.

Lemma trip_choice_step (a : App) (act : Action) :
  trip_choice_ok a →
  negb (is_SetTrips act) = true →
  offered a act = true →
  trip_choice_ok (handle a act).
Proof.
  unfold trip_choice_ok. intros H Hact Hoff.
  destruct act; simpl; try exact H; try (by left); try discriminate.
  - destruct e as [new|new]; simpl; [exact H|].
    destruct H as [?|Hin]; [by left|right].
    rewrite userTripIds_cons.
    destruct (strict_eq _ _); [by right|done].
  - simpl in Hoff. apply andb_true_iff in Hoff as [Huser Hvalue].
    apply negb_true_iff in Huser.
    destruct (String.eqb_spec (filterUser (filters a)) "all") as [|Hne];
      [discriminate|].
    apply orb_true_iff in Hvalue as [Hall|Hin].
    + left. by apply String.eqb_eq.
    + right. apply existsb_exists in Hin as (id & Hid & Heq).
      apply String.eqb_eq in Heq. subst id.
      by rewrite filteredTrips_ids in Hid.
Qed.

(** X20: as long as the trip collection is not replaced by a refresh, the
    selected trip stays ['all'] or a trip of the selected user: pushes,
    date and layer changes keep it so, a change of user resets it, and the
    trip menu offers nothing else. *)
Theorem X20_selected_trip_belongs_to_user
    (acts : list Action) (a0 a : App) :
  forallb (λ act, negb (is_SetTrips act)) acts = true →
  trip_choice_ok a0 →
  run a0 acts = Some a →
  trip_choice_ok a.
Proof.
  intros Hacts H0 Hrun.
  apply (run_invariant trip_choice_ok (λ act, negb (is_SetTrips act)))
    with (acts := acts) (a := a0); auto.
  intros a1 act H Hact Hoff. by apply trip_choice_step.
Qed.

Lemma X20_selected_trip_belongs_to_user_witness :
  forallb (λ act, negb (is_SetTrips act))
    [SetProfiles (Some [Profile.mk "u1" None]);
     Pushed (InsertTrips Scenario.trip_a);
     ChangeUser "u1"; ChangeTrip "t1";
     Pushed (InsertTrips Scenario.trip_b)] = true
  ∧ trip_choice_ok app_init
  ∧ trip_choice_ok
      (handle (handle (handle (handle (handle app_init
         (SetProfiles (Some [Profile.mk "u1" None])))
         (Pushed (InsertTrips Scenario.trip_a)))
         (ChangeUser "u1")) (ChangeTrip "t1"))
         (Pushed (InsertTrips Scenario.trip_b))).
Proof.
  assert (trip_choice_ok app_init) as H0 by (left; reflexivity).
  split; [reflexivity|]. split; [exact H0|].
  apply (X20_selected_trip_belongs_to_user
           [SetProfiles (Some [Profile.mk "u1" None]);
            Pushed (InsertTrips Scenario.trip_a);
            ChangeUser "u1"; ChangeTrip "t1";
            Pushed (InsertTrips Scenario.trip_b)] app_init);
    [reflexivity|exact H0|vm_compute; reflexivity].
Defined.

(** ** Refresh *)

(** X21: a refresh always ends with the loading flag cleared and never
    touches the filters.  Each query that resolves replaces its collection
    wholesale by the rows received (none for a null result), whatever was
    fetched or pushed before; a query that throws leaves its collection and
    those of the queries after it as they were. *)
Theorem X21_refresh_outcome (a : App) (rp : Reply Profile.t)
    (rt : Reply Trip.t) (rd : Reply Point.t) :
  ∃ a', run a (fetchInitialData rp rt rd) = Some a'
    ∧ loading a' = false
    ∧ filters a' = filters a
    ∧ profiles a'
      = match rp with
        | Resolved data => or_empty data
        | Rejected => profiles a
        end
    ∧ trips (session a')
      = match rp, rt with
        | Resolved _, Resolved data => or_empty data
        | _, _ => trips (session a)
        end
    ∧ points (session a')
      = match rp, rt, rd with
        | Resolved _, Resolved _, Resolved data => or_empty data
        | _, _, _ => points (session a)
        end.
Proof.
  destruct rp as [dp|]; [destruct rt as [dt|]; [destruct rd as [dd|]|]|];
    eexists; (split; [reflexivity|]); simpl; repeat split.
Qed.

(** ** Layer toggles *)

Lemma toggleLayer_at (type k : string) (prev : gmap string bool) :
  truthy_at (toggleLayer type prev) k
  = if String.eqb type k then negb (truthy_at prev k) else truthy_at prev k.
Proof.
  unfold toggleLayer, truthy_at at 1.
  destruct (String.eqb_spec type k) as [->|Hne].
  - by rewrite lookup_insert_eq.
  - by rewrite lookup_insert_ne.
Qed.

Lemma layers_only_matter_pointwise {lib : DateLib} (tripsNow : list Trip.t)
    (user start finish trip : string) (active1 active2 : gmap string bool)
    (keep : Point.t → bool) (pts : list Point.t) :
  (∀ p, keep p = true →
        truthy_at active1 (to_key (Point.type p))
        = truthy_at active2 (to_key (Point.type p))) →
  List.filter keep
    (filteredPoints tripsNow (mkFilters user start finish trip active1) pts)
  = List.filter keep
      (filteredPoints tripsNow (mkFilters user start finish trip active2) pts).
Proof.
  intros Hsame. rewrite !filteredPoints_filter, !array_filter_twice.
  apply filter_ext. intros p.
  destruct (keep p) eqn:Hp; [|by rewrite !andb_false_r].
  rewrite !andb_true_r.
  unfold kept_by, canonical_order, forallb, stage_keeps, layer_pred.
  simpl. by rewrite (Hsame p Hp).
Qed.

(** X22: switching a layer off and on again (or on and off) gives back the
    filtered sequence there was before. *)
Theorem X22_toggle_twice_restores {lib : DateLib} (tripsNow : list Trip.t)
    (user start finish trip type : string) (active : gmap string bool)
    (pts : list Point.t) :
  filteredPoints tripsNow
    (mkFilters user start finish trip
       (toggleLayer type (toggleLayer type active))) pts
  = filteredPoints tripsNow (mkFilters user start finish trip active) pts.
Proof.
  rewrite <- (array_filter_all (λ _, true) (filteredPoints _ _ _)) by done.
  rewrite <- (array_filter_all (λ _, true)
                (filteredPoints _ (mkFilters _ _ _ _ active) _)) by done.
  apply layers_only_matter_pointwise. intros p _.
  rewrite !toggleLayer_at.
  destruct (String.eqb type (to_key (Point.type p))); [|reflexivity].
  apply negb_involutive.
Qed.

(** X23: toggling a layer changes the filtered sequence only in the points
    of that layer: the points of every other type that are shown are the
    same before and after. *)
Theorem X23_toggle_is_local {lib : DateLib} (tripsNow : list Trip.t)
    (user start finish trip type : string) (active : gmap string bool)
    (pts : list Point.t) :
  List.filter (λ p, negb (String.eqb type (to_key (Point.type p))))
    (filteredPoints tripsNow
       (mkFilters user start finish trip (toggleLayer type active)) pts)
  = List.filter (λ p, negb (String.eqb type (to_key (Point.type p))))
      (filteredPoints tripsNow
         (mkFilters user start finish trip active) pts).
Proof.
  apply layers_only_matter_pointwise. intros p Hp.
  rewrite toggleLayer_at. apply negb_true_iff in Hp. by rewrite Hp.
Qed.

(** ** User options *)

Lemma first_segment_split (s : string) :
  ∃ rest, s = String.append (first_segment s) rest
          ∧ (rest = "" ∨ ∃ r, rest = String "-" r).
Proof.
  induction s as [|c s (rest & Hs & Hrest)]; simpl.
  - exists "". by split; [|left].
  - destruct (Ascii.eqb_spec c "-") as [->|Hne].
    + exists (String "-" s). split; [reflexivity|right; eauto].
    + exists rest. split; [|exact Hrest].
      transitivity (String c (String.append (first_segment s) rest));
        [by f_equal|reflexivity].
Qed.

Lemma first_segment_no_dash (s : string) :
  ¬ In "-"%char (list_ascii_of_string (first_segment s)).
Proof.
  induction s as [|c s IH]; simpl; [tauto|].
  destruct (Ascii.eqb_spec c "-") as [->|Hne]; simpl; [tauto|].
  intros [?|?]; [congruence|tauto].
Qed.

(** X24: a profile without a usable name is listed under the first segment
    of its identifier: the identifier is that label followed by nothing or
    by a dash and more, and the label holds no dash. *)
Theorem X24_unnamed_profile_label (p : Profile.t) :
  blank_as_null (Profile.full_name p) = None →
  ∃ rest, Profile.id p = String.append (profile_label p) rest
          ∧ (rest = "" ∨ ∃ r, rest = String "-" r)
          ∧ ¬ In "-"%char (list_ascii_of_string (profile_label p)).
Proof.
  intros Hblank.
  assert (profile_label p = first_segment (Profile.id p)) as ->.
  { unfold profile_label, or_str. unfold blank_as_null in Hblank.
    destruct (Profile.full_name p) as [s|]; [|reflexivity].
    by destruct (truthy_str s). }
  destruct (first_segment_split (Profile.id p)) as (rest & Hid & Hrest).
  exists rest. split; [exact Hid|]. split; [exact Hrest|].
  apply first_segment_no_dash.
Qed.

Lemma X24_unnamed_profile_label_witness :
  blank_as_null (Profile.full_name (Profile.mk "3f2a-77c1-9b" (Some ""))) = None
  ∧ ∃ rest, Profile.id (Profile.mk "3f2a-77c1-9b" (Some ""))
            = String.append
                (profile_label (Profile.mk "3f2a-77c1-9b" (Some ""))) rest
            ∧ (rest = "" ∨ ∃ r, rest = String "-" r)
            ∧ ¬ In "-"%char
                  (list_ascii_of_string
                     (profile_label (Profile.mk "3f2a-77c1-9b" (Some "")))).
Proof.
  split; [reflexivity|].
  exact (X24_unnamed_profile_label (Profile.mk "3f2a-77c1-9b" (Some ""))
           eq_refl).
Defined.
